(** * run-clang-tidy: a model of [scripts/checks/run-clang-tidy.py]

    The script turns the output of [git diff --unified=0] into a line filter
    for clang-tidy, runs the tool, re-emits its diagnostics as CI annotations
    and derives an exit status from the tool's output.

    What the model takes for granted:
    - text is a [string] whose characters are the code points U+0000..U+00FF,
      and the character classes are Python's classes for [str] restricted to
      that range;
    - a regular expression is run by a small backtracking matcher that lists
      the successes in the order Python's [re] tries them, so that the first
      one is the match [re.match] returns;
    - [int] has no limit on the number of digits;
    - the functions of the [util] module, which is not part of the sources,
      are parameters of the script: [util.run] gives the exit status and the
      two output texts of a subprocess, [util.input_files] a list of paths;
    - an exception is a value: a function that can raise returns a
      [result]. *)

From Stdlib Require Import List String Ascii Bool Arith ZArith NArith Lia.
From Stdlib Require Import DecimalString DecimalPos DecimalN.
Import ListNotations.

Open Scope list_scope.
Open Scope string_scope.
Open Scope nat_scope.

(** ** Characters *)

Definition code (c : ascii) : nat := nat_of_ascii c.

Definition LF : ascii := ascii_of_nat 10.
Definition CR : ascii := ascii_of_nat 13.
Definition NL : string := String LF EmptyString.

Definition in_range (lo hi : nat) (c : ascii) : bool :=
  (lo <=? code c) && (code c <=? hi).

(** [str.isspace] on one character, also the class [\s] of a [str] pattern:
    TAB..CR, FS..US, space, NEL and NBSP. *)
Definition isspace (c : ascii) : bool :=
  in_range 9 13 c || in_range 28 32 c || (code c =? 133) || (code c =? 160).

(** The class [\d]: the decimal digits below U+0100 are [0-9]. *)
Definition isdigit (c : ascii) : bool := in_range 48 57 c.

(** The line boundaries of [str.splitlines] below U+0100. *)
Definition islinebreak (c : ascii) : bool :=
  in_range 10 13 c || in_range 28 30 c || (code c =? 133).

(** ** The [str] methods the script calls *)

Module PyStr.

Definition cons_head (c : ascii) (ws : list string) : list string :=
  match ws with
  | w :: ws' => String c w :: ws'
  | [] => [String c EmptyString]
  end.

(** [s.splitlines()]: no empty last line after a final boundary, and CR LF
    is one boundary. *)
Fixpoint splitlines (s : string) : list string :=
  match s with
  | EmptyString => []
  | String c t =>
      if islinebreak c then
        match t with
        | String c' t' =>
            if Ascii.eqb c CR && Ascii.eqb c' LF
            then EmptyString :: splitlines t'
            else EmptyString :: splitlines t
        | EmptyString => [EmptyString]
        end
      else cons_head c (splitlines t)
  end.

(** [s.split(sep)] for a one-character separator: never an empty list. *)
Fixpoint split_on (sep : ascii) (s : string) : list string :=
  match s with
  | EmptyString => [EmptyString]
  | String c t =>
      if Ascii.eqb c sep then EmptyString :: split_on sep t
      else cons_head c (split_on sep t)
  end.

(** [s.split()]: runs of whitespace separate the fields, none is empty.
    [cur] is the field being read. *)
Fixpoint split_from (cur : string) (s : string) : list string :=
  match s with
  | EmptyString =>
      match cur with EmptyString => [] | _ => [cur] end
  | String c t =>
      if isspace c then
        match cur with
        | EmptyString => split_from EmptyString t
        | _ => cur :: split_from EmptyString t
        end
      else split_from (cur ++ String c EmptyString) t
  end.

Definition split (s : string) : list string := split_from EmptyString s.

(** [s.rstrip(chars)] for a one-character set. *)
Fixpoint rstrip (ch : ascii) (s : string) : string :=
  match s with
  | EmptyString => EmptyString
  | String c t =>
      match rstrip ch t with
      | EmptyString => if Ascii.eqb c ch then EmptyString else String c EmptyString
      | t' => String c t'
      end
  end.

Fixpoint drop (n : nat) (s : string) : string :=
  match n, s with
  | S n', String _ t => drop n' t
  | _, _ => s
  end.

(** [s.removeprefix(p)] *)
Definition removeprefix (p s : string) : string :=
  if String.prefix p s then drop (String.length p) s else s.

(** [sep.join(l)] *)
Fixpoint join (sep : string) (l : list string) : string :=
  match l with
  | [] => EmptyString
  | [x] => x
  | x :: l' => x ++ sep ++ join sep l'
  end.

End PyStr.

(** ** Regular expressions, as [re.match] runs them *)

Module Re.

(** One-character patterns. *)
Inductive cset :=
| CChar (c : ascii)                    (* a literal character *)
| CDot                                 (* [.]: anything but LF *)
| CDigit                               (* [\d] *)
| CSpace                               (* [\s] *)
| CRanges (rs : list (ascii * ascii)). (* [[a-z0-9,\-]] *)

Definition cset_mem (cs : cset) (c : ascii) : bool :=
  match cs with
  | CChar a => Ascii.eqb c a
  | CDot => negb (Ascii.eqb c LF)
  | CDigit => isdigit c
  | CSpace => isspace c
  | CRanges rs => existsb (fun r => in_range (code (fst r)) (code (snd r)) c) rs
  end.

(** The patterns of the script repeat one-character patterns only. *)
Inductive regex :=
| Eps
| One (cs : cset)
| Bol                                  (* [^], no MULTILINE *)
| Eol                                  (* [$], no MULTILINE *)
| Cat (r1 r2 : regex)
| Alt (r1 r2 : regex)
| Star (cs : cset)                     (* greedy [*] *)
| Plus (cs : cset)                     (* greedy [+] *)
| Group (n : nat) (r : regex).         (* the [n]-th capturing group *)

Fixpoint Str (s : string) : regex :=
  match s with
  | EmptyString => Eps
  | String c t => Cat (One (CChar c)) (Str t)
  end.

(** A point of the search: [pos] characters read, [rest] still to read,
    [caps] the groups closed so far, the latest first. *)
Record mstate := MState {
  pos : nat;
  rest : string;
  caps : list (nat * string)
}.

Fixpoint take (n : nat) (s : string) : string :=
  match n, s with
  | S n', String c t => String c (take n' t)
  | _, _ => EmptyString
  end.

(** All the ways [cs*] can read from [s], the longest first. *)
Fixpoint run_star (cs : cset) (p : nat) (s : string) (g : list (nat * string))
  : list mstate :=
  match s with
  | String c t =>
      if cset_mem cs c
      then run_star cs (S p) t g ++ [MState p s g]
      else [MState p s g]
  | EmptyString => [MState p s g]
  end.

Definition close_group (n : nat) (st st' : mstate) : mstate :=
  MState (pos st') (rest st')
         ((n, take (pos st' - pos st) (rest st)) :: caps st').

(** The successes of [r] from [st], in the order a backtracking search
    finds them. *)
Fixpoint run (r : regex) (st : mstate) : list mstate :=
  match r with
  | Eps => [st]
  | One cs =>
      match rest st with
      | String c t =>
          if cset_mem cs c then [MState (S (pos st)) t (caps st)] else []
      | EmptyString => []
      end
  | Bol => if pos st =? 0 then [st] else []
  | Eol =>
      if String.eqb (rest st) EmptyString || String.eqb (rest st) NL
      then [st] else []
  | Cat r1 r2 => flat_map (run r2) (run r1 st)
  | Alt r1 r2 => run r1 st ++ run r2 st
  | Star cs => run_star cs (pos st) (rest st) (caps st)
  | Plus cs =>
      match rest st with
      | String c t =>
          if cset_mem cs c then run_star cs (S (pos st)) t (caps st) else []
      | EmptyString => []
      end
  | Group n r1 => map (close_group n st) (run r1 st)
  end.

(** [re.match(r, s)]: the first success from the start of [s], or [None]. *)
Definition rmatch (r : regex) (s : string) : option mstate :=
  hd_error (run r (MState 0 s [])).

(** [m.group(n)] *)
Fixpoint lookup (n : nat) (g : list (nat * string)) : option string :=
  match g with
  | [] => None
  | (k, v) :: g' => if k =? n then Some v else lookup n g'
  end.

Definition group (m : mstate) (n : nat) : option string := lookup n (caps m).

Definition matches (r : regex) (s : string) : bool :=
  match rmatch r s with Some _ => true | None => false end.

End Re.

Import Re.

Declare Scope re_scope.
Delimit Scope re_scope with re.
Bind Scope re_scope with regex.
Infix "+>" := Cat (at level 61, right associativity) : re_scope.
Infix "|+|" := Alt (at level 62, left associativity) : re_scope.

(** ** Exceptions *)

Inductive exn := ValueError | IndexError.

Inductive result (A : Type) :=
| Ok (a : A)
| Raise (e : exn).

Arguments Ok {A} a.
Arguments Raise {A} e.

Definition bind {A B : Type} (x : result A) (f : A -> result B) : result B :=
  match x with
  | Ok a => f a
  | Raise e => Raise e
  end.

Notation "x <- e1 ;; e2" := (bind e1 (fun x => e2))
  (at level 100, e1 at next level, right associativity).

(** ** [int(x)] *)

Module PyInt.

Fixpoint lstrip (s : string) : string :=
  match s with
  | String c t => if isspace c then lstrip t else s
  | EmptyString => s
  end.

Fixpoint rstrip (s : string) : string :=
  match s with
  | EmptyString => EmptyString
  | String c t =>
      match rstrip t with
      | EmptyString => if isspace c then EmptyString else String c EmptyString
      | t' => String c t'
      end
  end.

(** The digits of a literal, its underscores dropped: an underscore stands
    between two digits only.  [after_digit] tells that the character before
    was a digit. *)
Fixpoint digits (after_digit : bool) (s : string) : option string :=
  match s with
  | EmptyString => if after_digit then Some EmptyString else None
  | String c t =>
      if isdigit c then option_map (String c) (digits true t)
      else if Ascii.eqb c "_" && after_digit then digits false t
      else None
  end.

(** [int(s)] in base 10: surrounding whitespace, one optional sign, digits.
    The interpreter's configurable limit on the number of digits is left
    out. *)
Definition of_str (s : string) : result Z :=
  let s := rstrip (lstrip s) in
  let '(neg, body) :=
    match s with
    | String c t =>
        if Ascii.eqb c "-" then (true, t)
        else if Ascii.eqb c "+" then (false, t)
        else (false, s)
    | EmptyString => (false, s)
    end in
  match digits false body with
  | Some ds =>
      match NilEmpty.uint_of_string ds with
      | Some u => Ok (if neg then Z.opp (Z.of_uint u) else Z.of_uint u)
      | None => Raise ValueError
      end
  | None => Raise ValueError
  end.

(** [str(n)], as [json.dumps] writes an integer. *)
Definition to_str (z : Z) : string := NilZero.string_of_int (Z.to_int z).

End PyInt.

(** The elements of [lspan]: the strings of [fields[2].split(",")] and the
    integer [0] that line 53 appends. *)
Inductive atom :=
| AStr (s : string)
| AInt (z : Z).

Definition int (a : atom) : result Z :=
  match a with
  | AStr s => PyInt.of_str s
  | AInt z => Ok z
  end.

(** [l[i]] *)
Definition index {A : Type} (l : list A) (i : nat) : result A :=
  match nth_error l i with
  | Some a => Ok a
  | None => Raise IndexError
  end.

(** ** [class Multimap(dict)]

    A [dict] keeps its keys in insertion order: an association list, each key
    once. *)

Module Multimap.

Definition t (V : Type) : Type := list (string * list V).

Definition empty {V : Type} : t V := [].

(** [key in self] *)
Fixpoint contains {V : Type} (m : t V) (key : string) : bool :=
  match m with
  | [] => false
  | (k, _) :: m' => String.eqb k key || contains m' key
  end.

(** [self[key]] *)
Fixpoint getitem {V : Type} (m : t V) (key : string) : option (list V) :=
  match m with
  | [] => None
  | (k, vs) :: m' => if String.eqb k key then Some vs else getitem m' key
  end.

(** [self[key].append(value)] *)
Fixpoint append_at {V : Type} (m : t V) (key : string) (value : V) : t V :=
  match m with
  | [] => []
  | (k, vs) :: m' =>
      if String.eqb k key then (k, (vs ++ [value])%list) :: m'
      else (k, vs) :: append_at m' key value
  end.

(** [self[key] = value] *)
Definition setitem {V : Type} (m : t V) (key : string) (value : V) : t V :=
  if negb (contains m key) then (m ++ [(key, [value])])%list
  else append_at m key value.

(** [self.items()] *)
Definition items {V : Type} (m : t V) : list (string * list V) := m.

Definition keys {V : Type} (m : t V) : list string := map fst m.

End Multimap.

(** ** [json.dumps] of the line filter *)

Module Json.

Definition QUOTE : ascii := ascii_of_nat 34.
Definition BACKSLASH : ascii := ascii_of_nat 92.

Definition hex_digit (n : nat) : ascii :=
  if n <? 10 then ascii_of_nat (48 + n) else ascii_of_nat (87 + n).

(** One character of a string, with [ensure_ascii]. *)
Definition escape (c : ascii) : string :=
  let n := code c in
  if n =? 34 then String BACKSLASH (String QUOTE EmptyString)
  else if n =? 92 then String BACKSLASH (String BACKSLASH EmptyString)
  else if n =? 10 then String BACKSLASH "n"
  else if n =? 13 then String BACKSLASH "r"
  else if n =? 9 then String BACKSLASH "t"
  else if n =? 12 then String BACKSLASH "f"
  else if n =? 8 then String BACKSLASH "b"
  else if (32 <=? n) && (n <=? 126) then String c EmptyString
  else String BACKSLASH
         ("u00" ++ String (hex_digit (n / 16)) (String (hex_digit (n mod 16)) EmptyString)).

Fixpoint escape_all (s : string) : string :=
  match s with
  | EmptyString => EmptyString
  | String c t => escape c ++ escape_all t
  end.

Definition dumps_str (s : string) : string :=
  String QUOTE (escape_all s ++ String QUOTE EmptyString).

Definition dumps_list (items : list string) : string :=
  "[" ++ PyStr.join ", " items ++ "]".

(** [[start, end]] *)
Definition dumps_range (r : Z * Z) : string :=
  dumps_list [PyInt.to_str (fst r); PyInt.to_str (snd r)].

(** [{"name": key, "lines": value}] *)
Definition dumps_entry (e : string * list (Z * Z)) : string :=
  "{" ++ dumps_str "name" ++ ": " ++ dumps_str (fst e) ++ ", "
      ++ dumps_str "lines" ++ ": " ++ dumps_list (map dumps_range (snd e)) ++ "}".

Definition dumps (doc : list (string * list (Z * Z))) : string :=
  dumps_list (map dumps_entry doc).

End Json.

(** ** The script *)

(** [^\+\+\+ b/.*] *)
Definition re_new_file : regex :=
  (Bol +> Str "+++ b/" +> Star CDot)%re.

(** [(\.cpp|\.h|\.hpp)], as group [n] *)
Definition re_suffix (n : nat) : regex :=
  Group n (Str ".cpp" |+| Str ".h" |+| Str ".hpp")%re.

(** [^\+\+\+ b/(.*(\.cpp|\.h|\.hpp))$] *)
Definition re_source_file : regex :=
  (Bol +> Str "+++ b/" +> Group 1 (Star CDot +> re_suffix 2) +> Eol)%re.

(** [^@@] *)
Definition re_hunk : regex := (Bol +> Str "@@")%re.

(** The locals of the loop of [git_changed_lines]. *)
Record scan_state := Scan {
  file : string;
  changed_lines : Multimap.t (Z * Z)
}.

Definition scan_init : scan_state := Scan EmptyString Multimap.empty.

(** Lines 41 to 47: [file] after the two marker patterns were tried.  Group
    1 takes part in every match of the second pattern, so the branch for a
    group that did not is never taken. *)
Definition next_file (file : string) (line : string) : string :=
  let file :=
    match rmatch re_new_file line with
    | Some _ => EmptyString
    | None => file
    end in
  match rmatch re_source_file line with
  | Some m => match group m 1 with Some f => f | None => EmptyString end
  | None => file
  end.

(** Lines 51 to 55: the range a hunk header gives, read from its fields. *)
Definition hunk_range (fields : list string) : result (Z * Z) :=
  f <- index fields 2 ;;
  let lspan := map AStr (PyStr.split_on "," f) in
  let lspan := if List.length lspan <=? 1 then (lspan ++ [AInt 0%Z])%list else lspan in
  s0 <- index lspan 0 ;;
  a <- int s0 ;;
  a' <- int s0 ;;
  s1 <- index lspan 1 ;;
  b <- int s1 ;;
  Ok (a, (a' + b)%Z).

(** Lines 38 to 55: the body of the loop, on one line of the diff. *)
Definition scan_line (st : scan_state) (line : string) : result scan_state :=
  let line := PyStr.rstrip LF line in
  let fields := PyStr.split line in
  let file := next_file (file st) line in
  if matches re_hunk line && negb (String.eqb file EmptyString) then
    (r <- hunk_range fields ;;
     Ok (Scan file (Multimap.setitem (changed_lines st) file r)))
  else Ok (Scan file (changed_lines st)).

(** The loop, over the lines still to read. *)
Fixpoint scan (lines : list string) (st : scan_state) : result scan_state :=
  match lines with
  | [] => Ok st
  | l :: ls => st' <- scan_line st l ;; scan ls st'
  end.

(** [git_changed_lines], from the text the diff subprocess printed: the
    mapping at the end of the loop, and the string returned. *)
Definition changed_lines_of (diff : string) : result (Multimap.t (Z * Z)) :=
  st <- scan (PyStr.splitlines diff) scan_init ;; Ok (changed_lines st).

Definition git_changed_lines_of (diff : string) : result string :=
  m <- changed_lines_of diff ;; Ok (Json.dumps (Multimap.items m)).

(** [^/.* warning: ] *)
Definition re_warning : regex :=
  (Bol +> Str "/" +> Star CDot +> Str " warning: ")%re.

Definition check_output (output : string) : option mstate :=
  rmatch re_warning output.

(** Lines 101 and 103: [ok = check_output(stdout)], [return 0 if ok else 1]. *)
Definition exit_status (stdout : string) : Z :=
  match check_output stdout with
  | Some _ => 0%Z
  | None => 1%Z
  end.

(** [.*(\.cpp|\.h|\.hpp)$] *)
Definition re_checked_file : regex := (Star CDot +> re_suffix 1 +> Eol)%re.

(** [[a-z0-9,\-]] *)
Definition rule_chars : cset :=
  CRanges [("a", "z"); ("0", "9"); (",", ","); ("-", "-")]%char.

(** [^(.* ):(\d+):(\d+):\s+(error|warning):\s+(.* ) \[([a-z0-9,\-]+)\]\s*$],
    written here with a blank between a star and the parenthesis closing its
    group; the pattern has none. *)
Definition clang_tidy_pattern : regex :=
  (Bol +> Group 1 (Star CDot) +> Str ":" +> Group 2 (Plus CDigit) +> Str ":"
       +> Group 3 (Plus CDigit) +> Str ":" +> Plus CSpace
       +> Group 4 (Str "error" |+| Str "warning") +> Str ":" +> Plus CSpace
       +> Group 5 (Star CDot) +> Str " ["
       +> Group 6 (Plus rule_chars)
       +> Str "]" +> Star CSpace +> Eol)%re.

Definition workspace_prefix : string := "/__w/velox/velox/".

Definition group_or_empty (m : mstate) (n : nat) : string :=
  match group m n with Some s => s | None => EmptyString end.

(** Lines 93 to 99 on one line of the tool's output, for a path prefix:
    what is printed, if anything. *)
Definition annotation (prefix : string) (stdout_line : string) : option string :=
  match rmatch clang_tidy_pattern stdout_line with
  | Some m =>
      let file := PyStr.removeprefix prefix (group_or_empty m 1) in
      let line := group_or_empty m 2 in
      let col := group_or_empty m 3 in
      let severity := group_or_empty m 4 in
      let message := group_or_empty m 5 in
      let rule := group_or_empty m 6 in
      Some ("::" ++ severity ++ " file=" ++ file ++ ",line=" ++ line
                 ++ ",col=" ++ col ++ ",title=" ++ rule ++ "::" ++ message)
  | None => None
  end.

Fixpoint annotations (prefix : string) (lines : list string) : list string :=
  match lines with
  | [] => []
  | l :: ls =>
      match annotation prefix l with
      | Some a => a :: annotations prefix ls
      | None => annotations prefix ls
      end
  end.

(** The namespace [parse_args] returns. *)
Record args := Args {
  commit : option string;
  fix_mode : option string;  (* [args.fix] *)
  files : list string
}.

(** Line 72 *)
Definition fix_flag (a : args) : string :=
  match fix_mode a with
  | Some v => if String.eqb v "fix" then "--fix" else EmptyString
  | None => EmptyString
  end.

(** The command of line 83. *)
Definition tidy_command (fix_opt lines : string) : string :=
  "xargs clang-tidy -p=_build/release/ --format-style=file -header-filter='.*' --quiet "
    ++ fix_opt ++ " " ++ lines.

Record outcome := Outcome {
  command : string;       (* the command the tool was run with *)
  printed : list string;  (* the lines printed, in order *)
  status : Z              (* the value [tidy] returns *)
}.

Section Script.

(** [util.run(command, input=...)]: exit status, standard output and
    standard error of the subprocess. *)
Variable util_run : string -> option (list string) -> Z * string * string.
(** [util.input_files] *)
Variable util_input_files : list string -> list string.
(** [os.environ.get("GITHUB_ACTIONS")] *)
Variable GITHUB_ACTIONS : option string.

Definition run_stdout (r : Z * string * string) : string := snd (fst r).

Definition git_diff_command (commit : string) : string :=
  "git diff --text --unified=0 " ++ commit.

Definition git_changed_lines (commit : string) : result string :=
  git_changed_lines_of (run_stdout (util_run (git_diff_command commit) None)).

(** Lines 67 and 68: the files handed to the tool. *)
Definition checked_files (a : args) : list string :=
  filter (matches re_checked_file) (util_input_files (files a)).

(** Lines 73 to 77: the line filter argument. *)
Definition line_filter (a : args) : result string :=
  match commit a with
  | Some c => (l <- git_changed_lines c ;; Ok ("'--line-filter=" ++ l ++ "'"))
  | None => Ok EmptyString
  end.

Definition tidy (a : args) : result outcome :=
  let files := checked_files a in
  let in_gha := match GITHUB_ACTIONS with Some _ => true | None => false end in
  let fix_opt := fix_flag a in
  lines <- line_filter a ;;
  let cmd := tidy_command fix_opt lines in
  let stdout := run_stdout (util_run cmd (Some files)) in
  let notes :=
    if in_gha then annotations workspace_prefix (PyStr.split_on LF stdout)
    else [] in
  Ok (Outcome cmd (lines :: notes) (exit_status stdout)).

(** [main] *)
Definition main (a : args) : result Z :=
  out <- tidy a ;; Ok (status out).

End Script.

(** ** The objects [git_changed_lines] works on

    The function fills its mapping in place.  The [Multimap] of line 35 is a
    [dict] object; under each key it holds a [list] object, made by line 28
    and appended to by line 30.  The objects of the process live in a heap,
    an object at the address that is its position, and none is freed while
    the function runs.  A range, the two-element list of line 55, is written
    once and never changed: it stands in the heap as a pair.  The list
    [lspan] of line 51 is made anew for each hunk header and dropped after
    it: [hunk_range] computes with it as a value.  An operation
    returns [None] when an address does not hold an object of the class the
    operation is for. *)

Module Store.

Inductive object :=
| Dict (entries : list (string * nat))  (* the keys in insertion order, each with the address of its value *)
| PyList (elements : list (Z * Z)).

Definition heap : Type := list object.

(** A new object: its address and the heap with it. *)
Definition alloc (h : heap) (o : object) : nat * heap :=
  (List.length h, (h ++ [o])%list).

Definition load (h : heap) (a : nat) : option object := nth_error h a.

(** The object at an address changed in place. *)
Fixpoint store (h : heap) (a : nat) (o : object) : heap :=
  match h, a with
  | [], _ => []
  | _ :: h', 0 => o :: h'
  | x :: h', S a' => x :: store h' a' o
  end.

(** The address a [dict] holds under a key. *)
Fixpoint address_of (es : list (string * nat)) (key : string) : option nat :=
  match es with
  | [] => None
  | (k, a) :: es' => if String.eqb k key then Some a else address_of es' key
  end.

End Store.

(** [self[key] = value] on the [Multimap] at address [self]: lines 27 to 30. *)
Definition setitem_in (h : Store.heap) (self : nat) (key : string) (value : Z * Z)
  : option Store.heap :=
  match Store.load h self with
  | Some (Store.Dict es) =>
      match Store.address_of es key with
      | None =>
          let (l, h1) := Store.alloc h (Store.PyList [value]) in
          Some (Store.store h1 self (Store.Dict (es ++ [(key, l)])%list))
      | Some l =>
          match Store.load h l with
          | Some (Store.PyList vs) =>
              Some (Store.store h l (Store.PyList (vs ++ [value])%list))
          | _ => None
          end
      end
  | _ => None
  end.

(** Lines 38 to 55 on one line of the diff, [changed_lines] being the
    object at address [d]: the new value of [file], or what was raised, and
    the heap the line leaves. *)
Definition scan_line_in (h : Store.heap) (d : nat) (file : string) (line : string)
  : option (result string * Store.heap) :=
  let line := PyStr.rstrip LF line in
  let fields := PyStr.split line in
  let file := next_file file line in
  if matches re_hunk line && negb (String.eqb file EmptyString) then
    match hunk_range fields with
    | Ok r =>
        match setitem_in h d file r with
        | Some h' => Some (Ok file, h')
        | None => None
        end
    | Raise e => Some (Raise e, h)
    end
  else Some (Ok file, h).

Fixpoint scan_in (h : Store.heap) (d : nat) (file : string) (lines : list string)
  : option (result string * Store.heap) :=
  match lines with
  | [] => Some (Ok file, h)
  | l :: ls =>
      match scan_line_in h d file l with
      | Some (Ok file', h') => scan_in h' d file' ls
      | Some (Raise e, h') => Some (Raise e, h')
      | None => None
      end
  end.

(** [changed_lines.items()], read from the heap. *)
Fixpoint items_in (h : Store.heap) (es : list (string * nat))
  : option (list (string * list (Z * Z))) :=
  match es with
  | [] => Some []
  | (k, a) :: es' =>
      match Store.load h a, items_in h es' with
      | Some (Store.PyList vs), Some rest => Some ((k, vs) :: rest)
      | _, _ => None
      end
  end.

(** [git_changed_lines] in a process whose heap is [h], from the text the
    diff subprocess printed: what is returned or raised, and the heap the
    call leaves. *)
Definition git_changed_lines_in (h : Store.heap) (diff : string)
  : option (result string * Store.heap) :=
  let (d, h0) := Store.alloc h (Store.Dict []) in
  match scan_in h0 d EmptyString (PyStr.splitlines diff) with
  | Some (Ok _, h1) =>
      match Store.load h1 d with
      | Some (Store.Dict es) =>
          match items_in h1 es with
          | Some doc => Some (Ok (Json.dumps doc), h1)
          | None => None
          end
      | _ => None
      end
  | Some (Raise e, h1) => Some (Raise e, h1)
  | None => None
  end.

(** * Vocabulary of the statements *)

(** [all p s]: every character of [s] satisfies [p]. *)
Fixpoint all (p : ascii -> bool) (s : string) : bool :=
  match s with
  | EmptyString => true
  | String c t => p c && all p t
  end.

(** No LF in the text: what [.] can read through. *)
Definition no_lf (s : string) : bool := all (cset_mem CDot) s.

Definition has_suffix (suf s : string) : Prop := exists y, s = y ++ suf.

(** A path that ends in [.cpp], [.h] or [.hpp]. *)
Definition source_path (x : string) : Prop :=
  has_suffix ".cpp" x \/ has_suffix ".h" x \/ has_suffix ".hpp" x.

Definition no_break (s : string) : bool := all (fun c => negb (islinebreak c)) s.
Definition no_space (s : string) : bool := all (fun c => negb (isspace c)) s.
Definition no_comma (s : string) : bool := all (fun c => negb (Ascii.eqb c ",")) s.

(** The decimal writing of a number. *)
Definition dec (n : N) : string := NilZero.string_of_uint (N.to_uint n).

(** The keys of a list, each at its first place. *)
Fixpoint first_seen (ks : list string) : list string :=
  match ks with
  | [] => []
  | k :: ks' => k :: filter (fun k' => negb (String.eqb k' k)) (first_seen ks')
  end.

(** The values under a key, none if the key is absent. *)
Definition values {V : Type} (m : Multimap.t V) (k : string) : list V :=
  match Multimap.getitem m k with
  | Some vs => vs
  | None => []
  end.

(** [self[k] = v] for each [(k, v)] of a list, in order. *)
Definition record_all {V : Type} (evs : list (string * V)) (m : Multimap.t V)
  : Multimap.t V :=
  fold_left (fun m e => Multimap.setitem m (fst e) (snd e)) evs m.

Definition absent (ks : list string) (k : string) : bool :=
  negb (existsb (String.eqb k) ks).

(** A hunk header [@@ old new @@tail]: [old] and [new] are the two spans,
    [tail] is what git prints after the second [@@]. *)
Definition hunk_header (old new tail : string) : string :=
  "@@ " ++ old ++ " " ++ new ++ " @@" ++ tail.

(** The marker line [+++ b/path] of a file section. *)
Definition marker (path : string) : string := "+++ b/" ++ path.

(** The old-side span [-a,b]. *)
Definition old_span (a b : N) : string := "-" ++ dec a ++ "," ++ dec b.

(** The diff of the specification's example: two source files and a text
    file between them. *)
Definition example_diff : string :=
  PyStr.join NL
    ["+++ b/foo.cpp"; "@@ -10,0 +12,3 @@";
     "+++ b/bar.txt"; "@@ -1,0 +2,1 @@";
     "+++ b/foo.h"; "@@ -5 +7 @@"].

Definition example_doc : Multimap.t (Z * Z) :=
  [("foo.cpp", [(12, 15)%Z]); ("foo.h", [(7, 7)%Z])].

(** Deciding [source_path]. *)
Definition ends_with (suf s : string) : bool :=
  (String.length suf <=? String.length s)
  && String.eqb (PyStr.drop (String.length s - String.length suf) s) suf.

Definition is_source_path (x : string) : bool :=
  ends_with ".cpp" x || ends_with ".h" x || ends_with ".hpp" x.

(** The numbers of a new-side span: its start and, if written, its count. *)
Definition span_numbers (f : string) : list string :=
  firstn 2 (PyStr.split_on "," f).

Definition bad_number_diff : string :=
  PyStr.join NL ["+++ b/foo.cpp"; "@@ -10,0 +12,3 @@"; "index 1f2e..3d4c";
                 "@@ -20 +2x,1 @@"; "+++ b/foo.h"].

(** A diff as git prints it: [a.cpp] is changed and [b.cpp] is deleted, so
    the section of [b.cpp] has the marker [+++ /dev/null]. *)
Definition deletion_diff : string :=
  PyStr.join NL
    ["diff --git a/a.cpp b/a.cpp";
     "index 83db48f..bf269f4 100644";
     "--- a/a.cpp";
     "+++ b/a.cpp";
     "@@ -1 +1 @@";
     "-int x;";
     "+int y;";
     "diff --git a/b.cpp b/b.cpp";
     "deleted file mode 100644";
     "index 0389a5b..0000000";
     "--- a/b.cpp";
     "+++ /dev/null";
     "@@ -1,3 +0,0 @@";
     "-int a;";
     "-int b;";
     "-int c;"].

(** The hunks the loop records, in the order it meets them, each with the
    file it is recorded under: one entry for each run of line 55. *)
Fixpoint hunks_of (lines : list string) (file : string)
  : result (list (string * (Z * Z))) :=
  match lines with
  | [] => Ok []
  | l :: ls =>
      let line := PyStr.rstrip LF l in
      let file := next_file file line in
      if matches re_hunk line && negb (String.eqb file EmptyString) then
        (r <- hunk_range (PyStr.split line) ;;
         evs <- hunks_of ls file ;;
         Ok ((file, r) :: evs))
      else hunks_of ls file
  end.

(** Two equal ranges under one file, and a file met again later. *)
Definition repeated_diff : string :=
  PyStr.join NL
    ["+++ b/a.cpp"; "@@ -1 +5,2 @@"; "@@ -9 +5,2 @@";
     "+++ b/b.h"; "@@ -1 +1 @@";
     "+++ b/a.cpp"; "@@ -3 +2 @@"].

Definition repeated_doc : Multimap.t (Z * Z) :=
  [("a.cpp", [(5, 7)%Z; (5, 7)%Z; (2, 2)%Z]); ("b.h", [(1, 1)%Z])].

(** The first element of [stdout.split("\n")]: the text before the first
    LF. *)
Definition first_line (s : string) : string :=
  hd EmptyString (PyStr.split_on LF s).

(** What the tool printed in the run of [tidy] that gave [out]. *)
Definition tool_stdout
    (util_run : string -> option (list string) -> Z * string * string)
    (util_input_files : list string -> list string)
    (a : args) (out : outcome) : string :=
  run_stdout (util_run (command out) (Some (checked_files util_input_files a))).

(** [util.input_files] when the arguments are the files themselves. *)
Definition given_files (fs : list string) : list string := fs.

(** The tool reports an error first and a warning on a later line. *)
Definition late_warning_line : string :=
  "/src/b.cpp:3:5: warning: unused variable 'x' [clang-diagnostic-unused-variable]".

Definition late_warning_stdout : string :=
  PyStr.join NL
    ["/src/a.cpp:1:10: error: 'x.h' file not found [clang-diagnostic-error]";
     late_warning_line].

Definition late_warning_run (cmd : string) (input : option (list string))
  : Z * string * string :=
  (1%Z, late_warning_stdout, EmptyString).

Definition late_warning_args : args := Args None None ["a.cpp"; "b.cpp"].

(** A diff subprocess that prints the diff of the example. *)
Definition quiet_diff_run (cmd : string) (input : option (list string))
  : Z * string * string :=
  (0%Z, example_diff, EmptyString).

(** A run in fix mode of a tool that prints nothing. *)
Definition silent_run (cmd : string) (input : option (list string))
  : Z * string * string :=
  (0%Z, EmptyString, EmptyString).

Definition fix_args : args := Args None (Some "fix") ["a.cpp"].

(** The tool's output in the CI: two diagnostics under the workspace and a
    line of source code between them. *)
Definition ci_stdout : string :=
  PyStr.join NL
    ["/__w/velox/velox/velox/exec/Task.cpp:10:3: warning: unused variable [rule-x]";
     "  int x = 0;";
     "/__w/velox/velox/velox/exec/Task.h:7:1: error: unknown type name 'Foo' [clang-diagnostic-error]"].

Definition ci_run (cmd : string) (input : option (list string))
  : Z * string * string :=
  (0%Z, ci_stdout, EmptyString).

Definition ci_args : args := Args None None ["velox/exec/Task.cpp"].

(** A line the loop of [git_changed_lines] looks at: a [+++ b/] marker or a
    hunk header. *)
Definition is_control_line (l : string) : bool :=
  String.prefix "+++ b/" l || String.prefix "@@" l.

(** A printable ASCII character, from the blank to the tilde. *)
Definition printable (c : ascii) : bool := (32 <=? code c) && (code c <=? 126).

(** A mapping with two files, and a diff that names no source file and has
    hunk headers that could not be read. *)
Definition two_files : Multimap.t (Z * Z) :=
  [("a.cpp", [(1, 2)%Z]); ("b.h", [(3, 3)%Z; (3, 3)%Z])].

Definition no_source_diff : string :=
  PyStr.join NL
    ["diff --git a/README.md b/README.md"; "+++ b/README.md"; "@@";
     "@@ -1 +x @@"; "+++ /dev/null"; "@@ -3 +4,5 @@"].

(** A diff whose second hunk header stops after its old-side span, one with
    the lines of the files between its markers and hunk headers, and the same
    with those lines taken out. *)
Definition short_header_diff : string :=
  PyStr.join NL ["+++ b/foo.cpp"; "@@ -10,0 +12,3 @@"; "@@ -20"; "+++ b/foo.h"].

Definition full_diff : string :=
  PyStr.join NL
    ["diff --git a/foo.cpp b/foo.cpp"; "--- a/foo.cpp"; "+++ b/foo.cpp";
     "@@ -1 +1 @@"; "-int x;"; "+int y;"].

Definition bare_diff : string :=
  PyStr.join NL ["+++ b/foo.cpp"; "@@ -1 +1 @@"].

Definition commit_args : args := Args (Some "HEAD~1") None ["foo.cpp"].

(** File names as the file-list provider may give them, and a diff with
    lines before its first marker. *)
Definition mixed_files : list string :=
  ["velox/exec/Task.cpp"; "README.md"; "velox/exec/Task.h"; "CMakeLists.txt";
   "velox/vector/Base.hpp"; "scripts/util.py"].

Definition mixed_args : args := Args None None mixed_files.

Definition late_marker_diff : string :=
  PyStr.join NL
    ["diff --git a/foo.cpp b/foo.cpp"; "@@ -7 +7 @@"; "@@ malformed";
     "+++ b/foo.cpp"; "@@ -2 +2 @@"].

(** What the heap holds at [d] stands for the mapping [m]: a [dict] with
    the keys of [m] in their order, each with the address of a [list] of its
    own that holds the values of the key.  No address is below [n]. *)
Definition holds (n : nat) (h : Store.heap) (e : string * nat)
    (kv : string * list (Z * Z)) : Prop :=
  fst e = fst kv /\ n <= snd e
  /\ Store.load h (snd e) = Some (Store.PyList (snd kv)).

Definition represents (n : nat) (h : Store.heap) (d : nat)
    (m : Multimap.t (Z * Z)) : Prop :=
  n <= d
  /\ exists es, Store.load h d = Some (Store.Dict es)
               /\ Forall2 (holds n h) es m
               /\ NoDup (map snd es).

(** A heap left by earlier work: a mapping with one file and a list no
    mapping holds. *)
Definition used_heap : Store.heap :=
  [Store.Dict [("old.cpp", 1)]; Store.PyList [(1, 2)%Z]; Store.PyList [(7, 7)%Z]].

(** No colon with a digit after it. *)
Fixpoint no_colon_digit (s : string) : bool :=
  match s with
  | EmptyString => true
  | String c t =>
      match t with
      | String c' _ => negb (Ascii.eqb c ":" && isdigit c')
      | EmptyString => true
      end && no_colon_digit t
  end.

(** The text starts with a character that is not white space. *)
Definition starts_nonspace (s : string) : bool :=
  match s with
  | String c _ => negb (isspace c)
  | EmptyString => false
  end.

(** A diagnostic as the tool prints it, and the annotation line 96 builds
    from six texts. *)
Definition diagnostic_line (path ln col sev msg rule : string) : string :=
  path ++ ":" ++ ln ++ ":" ++ col ++ ": " ++ sev ++ ": " ++ msg
       ++ " [" ++ rule ++ "]".

Definition annotation_text (sev file ln col rule msg : string) : string :=
  "::" ++ sev ++ " file=" ++ file ++ ",line=" ++ ln ++ ",col=" ++ col
       ++ ",title=" ++ rule ++ "::" ++ msg.

(** Six texts that a diagnostic can be read back from in one way only: a
    path without white space, two numbers, a severity, a message that starts
    with a character that is not white space, stays on its line and has no
    colon with a digit after it, and the name of a rule. *)
Definition diagnostic_fields (path ln col sev msg rule : string) : Prop :=
  no_space path = true
  /\ (all isdigit ln = true /\ ln <> EmptyString)
  /\ (all isdigit col = true /\ col <> EmptyString)
  /\ (sev = "error" \/ sev = "warning")
  /\ (no_lf msg = true /\ starts_nonspace msg = true
      /\ no_colon_digit msg = true)
  /\ (all (cset_mem rule_chars) rule = true /\ rule <> EmptyString).

(** [sys.int_max_str_digits], as the interpreter starts with it: [int] of a
    text and the text of an [int] raise [ValueError] beyond that many digits.
    A diff whose lines are all shorter stays under it: a number read from a
    line has fewer digits than the line has characters, and the sum of two
    such numbers has at most this many. *)
Definition int_max_str_digits : nat := 4300.

Definition short_lines (diff : string) : Prop :=
  forall l, In l (PyStr.splitlines diff) -> String.length l < int_max_str_digits.

(** * Facts about text *)

Section StringFacts.

Lemma append_nil_r (s : string) : s ++ EmptyString = s.
Proof. induction s as [|c s IH]; simpl; [reflexivity | now rewrite IH]. Qed.

Lemma append_assoc (a b c : string) : (a ++ b) ++ c = a ++ (b ++ c).
Proof. induction a as [|x a IH]; simpl; [reflexivity | now rewrite IH]. Qed.

Lemma length_append (a b : string) :
  String.length (a ++ b) = String.length a + String.length b.
Proof. induction a as [|x a IH]; simpl; [reflexivity | now rewrite IH]. Qed.

Lemma append_inv_head (a b c : string) : a ++ b = a ++ c -> b = c.
Proof.
  induction a as [|x a IH]; simpl; intros H; [exact H | ].
  injection H as H. now apply IH.
Qed.

Lemma prefix_iff (p s : string) :
  String.prefix p s = true <-> exists r, s = p ++ r.
Proof.
  revert s. induction p as [|c p IH]; intros s.
  - split; [intros _; exists s | intros _]; destruct s; reflexivity.
  - destruct s as [|d s]; simpl.
    + split; [discriminate | intros [r H]; discriminate].
    + destruct (ascii_dec c d) as [->|Hcd].
      * rewrite IH. split; intros [r H]; exists r; [now rewrite H | now injection H].
      * split; [discriminate | intros [r H]; injection H as H1 H2; congruence].
Qed.

Lemma prefix_append (p r : string) : String.prefix p (p ++ r) = true.
Proof. apply prefix_iff. now exists r. Qed.

Lemma drop_append (p r : string) : PyStr.drop (String.length p) (p ++ r) = r.
Proof. induction p as [|c p IH]; simpl; [now destruct r | exact IH]. Qed.

Lemma take_append (p r : string) : Re.take (String.length p) (p ++ r) = p.
Proof. induction p as [|c p IH]; simpl; [now destruct r | now rewrite IH]. Qed.

Lemma take_exact (n : nat) (a r : string) :
  n = String.length a -> Re.take n (a ++ r) = a.
Proof. intros ->. apply take_append. Qed.

Lemma take_exact2 (n : nat) (a b r : string) :
  n = String.length a + String.length b -> Re.take n (a ++ b ++ r) = a ++ b.
Proof.
  intros ->. rewrite <- append_assoc, <- length_append. apply take_append.
Qed.

Lemma removeprefix_append (p r : string) : PyStr.removeprefix p (p ++ r) = r.
Proof.
  unfold PyStr.removeprefix. now rewrite prefix_append, drop_append.
Qed.

End StringFacts.

Lemma all_append (p : ascii -> bool) (a b : string) :
  all p (a ++ b) = all p a && all p b.
Proof.
  induction a as [|c a IH]; simpl; [reflexivity | ].
  now rewrite IH, andb_assoc.
Qed.

Lemma all_impl (p q : ascii -> bool) (s : string) :
  (forall c, p c = true -> q c = true) -> all p s = true -> all q s = true.
Proof.
  intros Hpq. induction s as [|c s IH]; simpl; [reflexivity | ].
  intros H. apply andb_true_iff in H as [H1 H2].
  now rewrite (Hpq _ H1), IH.
Qed.

(** * Facts about the matcher *)

Section MatcherFacts.

Lemma run_star_here cs p s g : In (MState p s g) (run_star cs p s g).
Proof.
  destruct s as [|c t]; simpl; [now left | ].
  destruct (cset_mem cs c); [apply in_or_app; right | ]; now left.
Qed.

Lemma In_run_star cs p s g st' :
  In st' (run_star cs p s g) <->
  exists w r, s = w ++ r /\ all (cset_mem cs) w = true
              /\ st' = MState (p + String.length w) r g.
Proof.
  split.
  - revert p. induction s as [|c t IH]; intros p H; simpl in H.
    + destruct H as [<-|[]]. exists EmptyString, EmptyString.
      simpl. now rewrite Nat.add_0_r.
    + assert (Hhere : st' = MState p (String c t) g ->
              exists w r, String c t = w ++ r /\ all (cset_mem cs) w = true
                          /\ st' = MState (p + String.length w) r g).
      { intros ->. exists EmptyString, (String c t). simpl.
        now rewrite Nat.add_0_r. }
      destruct (cset_mem cs c) eqn:Hc.
      * apply in_app_or in H as [H|[H|[]]]; [ | now apply Hhere].
        apply IH in H as (w & r & -> & Hw & ->).
        exists (String c w), r. simpl. rewrite Hc, Hw.
        now rewrite Nat.add_succ_r.
      * destruct H as [H|[]]. now apply Hhere.
  - intros (w & r & -> & Hw & ->). revert p.
    induction w as [|c w IH]; intros p; simpl.
    + rewrite Nat.add_0_r. apply run_star_here.
    + simpl in Hw. apply andb_true_iff in Hw as [Hc Hw]. rewrite Hc.
      apply in_or_app. left. rewrite Nat.add_succ_r. now apply (IH Hw (S p)).
Qed.

Lemma In_run_One cs st st' :
  In st' (run (One cs) st) <->
  exists c r, rest st = String c r /\ cset_mem cs c = true
              /\ st' = MState (S (pos st)) r (caps st).
Proof.
  simpl. destruct (rest st) as [|c t].
  - split; [intros [] | intros (c & r & H & _); discriminate].
  - destruct (cset_mem cs c) eqn:Hc.
    + split.
      * intros [<-|[]]. now exists c, t.
      * intros (c' & r & H & _ & ->). injection H as <- <-. now left.
    + split; [intros [] | ].
      intros (c' & r & H & Hc' & _). injection H as <- <-. congruence.
Qed.

Lemma In_run_Cat r1 r2 st st' :
  In st' (run (Cat r1 r2) st) <->
  exists mid, In mid (run r1 st) /\ In st' (run r2 mid).
Proof. simpl. apply in_flat_map. Qed.

Lemma In_run_Alt r1 r2 st st' :
  In st' (run (Alt r1 r2) st) <-> In st' (run r1 st) \/ In st' (run r2 st).
Proof. simpl. apply in_app_iff. Qed.

Lemma In_run_Str l st st' :
  In st' (run (Str l) st) <->
  exists r, rest st = l ++ r
            /\ st' = MState (pos st + String.length l) r (caps st).
Proof.
  revert st. induction l as [|c l IH]; intros st.
  - simpl. rewrite Nat.add_0_r. split.
    + intros [<-|[]]. exists (rest st). now destruct st.
    + intros (r & Hr & ->). left. destruct st; simpl in *. now subst.
  - change (Str (String c l)) with (Cat (One (CChar c)) (Str l)).
    rewrite In_run_Cat. split.
    + intros (mid & H1 & H2). apply In_run_One in H1 as (c' & r & Hr & Hc & ->).
      apply IH in H2 as (r' & Hr' & ->). simpl in *.
      apply Ascii.eqb_eq in Hc as ->. exists r'. rewrite Hr, Hr'.
      now rewrite Nat.add_succ_r.
    + intros (r & Hr & ->). exists (MState (S (pos st)) (l ++ r) (caps st)).
      split.
      * apply In_run_One. exists c, (l ++ r). simpl.
        now rewrite Ascii.eqb_refl.
      * apply IH. exists r. simpl. now rewrite Nat.add_succ_r.
Qed.

Lemma In_run_Star cs st st' :
  In st' (run (Star cs) st) <->
  exists w r, rest st = w ++ r /\ all (cset_mem cs) w = true
              /\ st' = MState (pos st + String.length w) r (caps st).
Proof. simpl. apply In_run_star. Qed.

Lemma In_run_Plus cs st st' :
  In st' (run (Plus cs) st) <->
  exists w r, rest st = w ++ r /\ all (cset_mem cs) w = true
              /\ w <> EmptyString
              /\ st' = MState (pos st + String.length w) r (caps st).
Proof.
  simpl. destruct (rest st) as [|c t].
  - split; [intros [] | ].
    intros (w & r & H & _ & Hw & _). destruct w; [congruence | discriminate].
  - destruct (cset_mem cs c) eqn:Hc.
    + rewrite In_run_star. split.
      * intros (w & r & -> & Hw & ->). exists (String c w), r. simpl.
        rewrite Hc, Hw, Nat.add_succ_r. repeat split. discriminate.
      * intros (w & r & H & Hw & Hne & ->). destruct w as [|c' w]; [congruence | ].
        simpl in *. injection H as <- ->. apply andb_true_iff in Hw as [_ Hw].
        exists w, r. now rewrite Nat.add_succ_r.
    + split; [intros [] | ].
      intros (w & r & H & Hw & Hne & _). destruct w as [|c' w]; [congruence | ].
      simpl in *. injection H as <- ->. rewrite Hc in Hw. discriminate.
Qed.

Lemma In_run_Bol st st' :
  In st' (run Bol st) <-> pos st = 0 /\ st' = st.
Proof.
  simpl. destruct (pos st =? 0) eqn:H.
  - apply Nat.eqb_eq in H. split; [intros [<-|[]]; now split | intros [_ ->]; now left].
  - apply Nat.eqb_neq in H. split; [intros [] | intros [H' _]; contradiction].
Qed.

Lemma In_run_Eol st st' :
  In st' (run Eol st) <-> (rest st = EmptyString \/ rest st = NL) /\ st' = st.
Proof.
  simpl.
  destruct (String.eqb_spec (rest st) EmptyString) as [H1|H1];
    destruct (String.eqb_spec (rest st) NL) as [H2|H2]; simpl;
    (split; [intros [<-|[]]; auto | intros [_ ->]; now left])
    || (split; [intros [] | intros [[H|H] _]; contradiction]).
Qed.

Lemma In_run_Group n r st st' :
  In st' (run (Group n r) st) <->
  exists st1, In st1 (run r st) /\ st' = close_group n st st1.
Proof.
  simpl. rewrite in_map_iff. split; intros (x & H1 & H2); exists x; auto.
Qed.

(** A success is a point further in the same text. *)
Lemma run_reads r : forall st st',
  In st' (run r st) ->
  exists w, rest st = w ++ rest st' /\ pos st' = pos st + String.length w.
Proof.
  induction r as [ |cs| | |r1 IH1 r2 IH2|r1 IH1 r2 IH2|cs|cs|n r IH]; intros st st' H.
  - destruct H as [<-|[]]. exists EmptyString. simpl. now rewrite Nat.add_0_r.
  - apply In_run_One in H as (c & t & Hr & _ & ->).
    exists (String c EmptyString). simpl. now rewrite Hr, Nat.add_1_r.
  - apply In_run_Bol in H as [_ ->]. exists EmptyString. simpl. now rewrite Nat.add_0_r.
  - apply In_run_Eol in H as [_ ->]. exists EmptyString. simpl. now rewrite Nat.add_0_r.
  - apply In_run_Cat in H as (mid & H1 & H2).
    apply IH1 in H1 as (w1 & E1 & P1). apply IH2 in H2 as (w2 & E2 & P2).
    exists (w1 ++ w2). rewrite append_assoc, <- E2, <- E1, length_append.
    split; [reflexivity | lia].
  - apply In_run_Alt in H as [H|H]; [now apply IH1 | now apply IH2].
  - apply In_run_Star in H as (w & t & Hr & _ & ->). now exists w.
  - apply In_run_Plus in H as (w & t & Hr & _ & _ & ->). now exists w.
  - apply In_run_Group in H as (st1 & H1 & ->). now apply IH in H1.
Qed.

(** A group that closes holds the text read inside it. *)
Lemma close_group_reads n st st1 w :
  rest st = w ++ rest st1 -> pos st1 = pos st + String.length w ->
  close_group n st st1 = MState (pos st1) (rest st1) ((n, w) :: caps st1).
Proof.
  intros Hr Hp. unfold close_group. rewrite Hr, Hp.
  replace (pos st + String.length w - pos st) with (String.length w) by lia.
  now rewrite take_append.
Qed.

Lemma rmatch_In r s m : rmatch r s = Some m -> In m (run r (MState 0 s [])).
Proof.
  unfold rmatch. destruct (run r (MState 0 s [])) as [|x l]; simpl; [discriminate | ].
  intros H. injection H as ->. now left.
Qed.

Lemma In_rmatch r s st : In st (run r (MState 0 s [])) -> exists m, rmatch r s = Some m.
Proof.
  unfold rmatch. destruct (run r (MState 0 s [])) as [|x l]; simpl; [intros [] | ].
  intros _. now exists x.
Qed.

Lemma matches_iff r s :
  matches r s = true <-> exists st, In st (run r (MState 0 s [])).
Proof.
  unfold matches. split.
  - destruct (rmatch r s) as [m|] eqn:H; [ | discriminate].
    intros _. exists m. now apply rmatch_In.
  - intros [st H]. apply In_rmatch in H as [m ->]. reflexivity.
Qed.

Lemma matches_false_iff r s : matches r s = false <-> rmatch r s = None.
Proof. unfold matches. destruct (rmatch r s); split; congruence. Qed.

End MatcherFacts.

(** Inversion of a success of a pattern, one construct at a time: a pattern
    is taken apart anywhere, a leaf is read once the point it starts from is
    known. *)
Ltac run_inv_step :=
  match goal with
  | H : In _ (run (Cat _ _) _) |- _ =>
      let m := fresh "m" in
      let H1 := fresh "H" in
      apply In_run_Cat in H as (m & H1 & H)
  | H : In _ (run (Alt _ _) _) |- _ =>
      apply In_run_Alt in H as [H|H]
  | H : In _ (run (Group _ _) _) |- _ =>
      let st1 := fresh "st" in
      let H1 := fresh "H" in
      apply In_run_Group in H as (st1 & H1 & H); unfold close_group in H
  | H : In _ (run Eps (MState _ _ _)) |- _ =>
      destruct H as [H|[]]
  | H : In _ (run (Str _) (MState _ _ _)) |- _ =>
      let r := fresh "r" in
      let E := fresh "E" in
      apply In_run_Str in H as (r & E & H)
  | H : In _ (run (One _) (MState _ _ _)) |- _ =>
      let c := fresh "c" in
      let r := fresh "r" in
      let E := fresh "E" in
      let A := fresh "A" in
      apply In_run_One in H as (c & r & E & A & H)
  | H : In _ (run (Star _) (MState _ _ _)) |- _ =>
      let w := fresh "w" in
      let r := fresh "r" in
      let E := fresh "E" in
      let A := fresh "A" in
      apply In_run_Star in H as (w & r & E & A & H)
  | H : In _ (run (Plus _) (MState _ _ _)) |- _ =>
      let w := fresh "w" in
      let r := fresh "r" in
      let E := fresh "E" in
      let A := fresh "A" in
      let N := fresh "N" in
      apply In_run_Plus in H as (w & r & E & A & N & H)
  | H : In _ (run Bol (MState _ _ _)) |- _ =>
      apply In_run_Bol in H as [_ H]
  | H : In _ (run Eol (MState _ _ _)) |- _ =>
      let E := fresh "E" in
      apply In_run_Eol in H as [E H]
  end;
  cbn [pos rest caps] in *; subst; cbn [pos rest caps] in *.

Ltac run_inv := repeat run_inv_step.

(** * Facts about the patterns of the script *)

Section PatternFacts.

Lemma matches_new_file l : matches re_new_file l = String.prefix "+++ b/" l.
Proof.
  destruct (String.prefix "+++ b/" l) eqn:P.
  - apply prefix_iff in P as [r ->]. apply matches_iff.
    exists (MState 6 r []). unfold re_new_file.
    apply In_run_Cat. exists (MState 0 ("+++ b/" ++ r) []). split; [now left | ].
    apply In_run_Cat. exists (MState 6 r []). split.
    + apply In_run_Str. now exists r.
    + apply run_star_here.
  - destruct (matches re_new_file l) eqn:M; [ | reflexivity].
    apply matches_iff in M as [st H]. unfold re_new_file in H.
    apply In_run_Cat in H as (m & H1 & H). apply In_run_Bol in H1 as [_ ->].
    apply In_run_Cat in H as (m & H1 & H).
    apply In_run_Str in H1 as (r & E & _). cbn [rest] in E.
    rewrite E, prefix_append in P. discriminate.
Qed.

Lemma matches_hunk l : matches re_hunk l = String.prefix "@@" l.
Proof.
  destruct (String.prefix "@@" l) eqn:P.
  - apply prefix_iff in P as [r ->]. apply matches_iff.
    exists (MState 2 r []). unfold re_hunk.
    apply In_run_Cat. exists (MState 0 ("@@" ++ r) []). split; [now left | ].
    apply In_run_Str. now exists r.
  - destruct (matches re_hunk l) eqn:M; [ | reflexivity].
    apply matches_iff in M as [st H]. unfold re_hunk in H.
    apply In_run_Cat in H as (m & H1 & H). apply In_run_Bol in H1 as [_ ->].
    apply In_run_Str in H as (r & E & _). cbn [rest] in E.
    rewrite E, prefix_append in P. discriminate.
Qed.

Lemma no_lf_append a b : no_lf (a ++ b) = no_lf a && no_lf b.
Proof. apply all_append. Qed.

(** What a match of the source-file marker pattern tells. *)
Lemma source_file_inv l m :
  rmatch re_source_file l = Some m ->
  exists x r, l = "+++ b/" ++ x ++ r /\ (r = EmptyString \/ r = NL)
              /\ source_path x /\ group m 1 = Some x.
Proof.
  intros H. apply rmatch_In in H. unfold re_source_file, re_suffix in H.
  run_inv.
  - exists (w ++ ".cpp"), r. rewrite append_assoc.
    repeat split; [assumption | left; now exists w | ].
    now rewrite take_exact2 by (simpl; lia).
  - exists (w ++ ".h"), r. rewrite append_assoc.
    repeat split; [assumption | right; left; now exists w | ].
    now rewrite take_exact2 by (simpl; lia).
  - exists (w ++ ".hpp"), r. rewrite append_assoc.
    repeat split; [assumption | right; right; now exists w | ].
    now rewrite take_exact2 by (simpl; lia).
Qed.

Lemma In_run_suffix n p y ext g :
  ext = ".cpp" \/ ext = ".h" \/ ext = ".hpp" ->
  exists st, In st (run (re_suffix n) (MState p (ext ++ y) g)) /\ rest st = y.
Proof.
  intros Hext. eexists. split.
  - unfold re_suffix. apply In_run_Group. eexists. split; [ | reflexivity].
    destruct Hext as [->|[->| ->]].
    + apply In_run_Alt; left. apply In_run_Alt; left.
      apply In_run_Str. exists y. split; reflexivity.
    + apply In_run_Alt; left. apply In_run_Alt; right.
      apply In_run_Str. exists y. split; reflexivity.
    + apply In_run_Alt; right.
      apply In_run_Str. exists y. split; reflexivity.
  - reflexivity.
Qed.

(** The marker of a source file matches. *)
Lemma source_file_match x :
  no_lf x = true -> source_path x ->
  exists m, rmatch re_source_file ("+++ b/" ++ x) = Some m.
Proof.
  intros Hx Hsrc.
  assert (exists y ext, x = y ++ ext /\ (ext = ".cpp" \/ ext = ".h" \/ ext = ".hpp"))
    as (y & ext & -> & Hext).
  { destruct Hsrc as [[y ->]|[[y ->]|[y ->]]]; eexists; eexists; eauto. }
  rewrite no_lf_append in Hx. apply andb_true_iff in Hx as [Hy _].
  destruct (In_run_suffix 2 (0 + String.length "+++ b/" + String.length y)
              EmptyString ext [] Hext) as (st & Hst & Hrest).
  rewrite append_nil_r in Hst.
  eapply In_rmatch. unfold re_source_file.
  apply In_run_Cat. eexists. split; [now left | ].
  apply In_run_Cat. eexists. split.
  { apply In_run_Str. eexists. split; reflexivity. }
  apply In_run_Cat. eexists. split.
  { apply In_run_Group. eexists. split; [ | reflexivity].
    apply In_run_Cat. eexists. split; [ | exact Hst].
    apply In_run_Star. exists y, ext. repeat split. exact Hy. }
  apply In_run_Eol. split; [ | reflexivity]. left. exact Hrest.
Qed.

Lemma no_lf_not_NL r : no_lf r = true -> r <> NL.
Proof. intros H ->. discriminate. Qed.

(** [file] after a line that is no marker, after the marker of a source
    file, and after another marker. *)
Lemma next_file_other cur l :
  String.prefix "+++ b/" l = false -> next_file cur l = cur.
Proof.
  intros P. unfold next_file.
  destruct (rmatch re_source_file l) as [m|] eqn:M.
  - apply source_file_inv in M as (x & r & -> & _).
    rewrite prefix_append in P. discriminate.
  - rewrite <- matches_new_file in P. apply matches_false_iff in P.
    now rewrite P.
Qed.

Lemma next_file_source cur x :
  no_lf x = true -> source_path x -> next_file cur ("+++ b/" ++ x) = x.
Proof.
  intros Hx Hsrc. unfold next_file.
  destruct (source_file_match x Hx Hsrc) as [m Hm]. rewrite Hm.
  apply source_file_inv in Hm as (x' & r & E & Hr & _ & ->).
  apply append_inv_head in E. subst x.
  rewrite no_lf_append in Hx. apply andb_true_iff in Hx as [_ Hx].
  destruct Hr as [->| ->]; [now rewrite append_nil_r | discriminate].
Qed.

Lemma next_file_not_source cur x :
  no_lf x = true -> ~ source_path x ->
  next_file cur ("+++ b/" ++ x) = EmptyString.
Proof.
  intros Hx Hsrc. unfold next_file.
  destruct (rmatch re_source_file ("+++ b/" ++ x)) as [m|] eqn:M.
  - exfalso. apply source_file_inv in M as (x' & r & E & Hr & Hs & _).
    apply append_inv_head in E. subst x.
    rewrite no_lf_append in Hx. apply andb_true_iff in Hx as [_ Hx].
    destruct Hr as [->| ->]; [ | discriminate].
    now rewrite append_nil_r in Hsrc.
  - assert (P : matches re_new_file ("+++ b/" ++ x) = true)
      by now rewrite matches_new_file, prefix_append.
    unfold matches in P. now destruct (rmatch re_new_file ("+++ b/" ++ x)).
Qed.

End PatternFacts.

(** * Facts about lines, fields and numbers *)

Section TextFacts.

Lemma splitlines_no_break_upto n : forall s,
  String.length s <= n ->
  forall l, In l (PyStr.splitlines s) -> no_break l = true.
Proof.
  induction n as [|n IH]; intros s Hn l Hin.
  - destruct s; [destruct Hin | simpl in Hn; lia].
  - destruct s as [|c t]; [destruct Hin | ].
    simpl in Hn, Hin. destruct (islinebreak c) eqn:B.
    + destruct t as [|c' t']; [destruct Hin as [<-|[]]; reflexivity | ].
      simpl in Hn.
      destruct (Ascii.eqb c CR && Ascii.eqb c' LF);
        (destruct Hin as [<-|Hin]; [reflexivity | ]);
        apply IH in Hin; simpl; try lia; exact Hin.
    + assert (Ht : forall w, In w (PyStr.splitlines t) -> no_break w = true)
        by (intros w; apply IH; lia).
      destruct (PyStr.splitlines t) as [|w ws]; simpl in Hin.
      * destruct Hin as [<-|[]]. unfold no_break. simpl. now rewrite B.
      * destruct Hin as [<-|Hin].
        -- unfold no_break. simpl. rewrite B. apply Ht. now left.
        -- apply Ht. now right.
Qed.

Lemma splitlines_no_break s l : In l (PyStr.splitlines s) -> no_break l = true.
Proof. now apply (splitlines_no_break_upto (String.length s)). Qed.

(** A line of [splitlines] holds no LF. *)
Lemma splitlines_no_lf s l : In l (PyStr.splitlines s) -> no_lf l = true.
Proof.
  intros H. apply splitlines_no_break in H. revert H. apply all_impl.
  intros c Hc. simpl. destruct (Ascii.eqb_spec c LF) as [->|]; [discriminate | reflexivity].
Qed.

Lemma rstrip_no_lf l : no_lf l = true -> PyStr.rstrip LF l = l.
Proof.
  induction l as [|c t IH]; [reflexivity | ].
  unfold no_lf. cbn [all PyStr.rstrip]. fold (no_lf t).
  intros H. apply andb_true_iff in H as [Hc Ht]. rewrite (IH Ht).
  destruct t; [ | reflexivity].
  change (negb (Ascii.eqb c LF) = true) in Hc.
  apply negb_true_iff in Hc. now rewrite Hc.
Qed.

(** [split()] *)
Lemma split_from_word w : forall cur s,
  no_space w = true ->
  PyStr.split_from cur (w ++ s) = PyStr.split_from (cur ++ w) s.
Proof.
  induction w as [|c w IH]; intros cur s H; simpl.
  - now rewrite append_nil_r.
  - simpl in H. apply andb_true_iff in H as [Hc Hw].
    apply negb_true_iff in Hc. rewrite Hc, (IH _ _ Hw), append_assoc.
    reflexivity.
Qed.

Lemma split_from_blank cur s :
  cur <> EmptyString ->
  PyStr.split_from cur (" " ++ s) = cur :: PyStr.split_from EmptyString s.
Proof. intros H. simpl. destruct cur; [contradiction | reflexivity]. Qed.

Lemma split_field f s :
  f <> EmptyString -> no_space f = true ->
  PyStr.split (f ++ " " ++ s) = f :: PyStr.split s.
Proof.
  intros Hne Hf. unfold PyStr.split.
  rewrite (split_from_word f EmptyString _ Hf). simpl (EmptyString ++ f).
  now apply split_from_blank.
Qed.

(** The third field of a line that starts with three fields. *)
Lemma split_third f0 f1 f2 s :
  f0 <> EmptyString -> no_space f0 = true ->
  f1 <> EmptyString -> no_space f1 = true ->
  f2 <> EmptyString -> no_space f2 = true ->
  index (PyStr.split (f0 ++ " " ++ f1 ++ " " ++ f2 ++ " " ++ s)) 2 = Ok f2.
Proof.
  intros. rewrite !split_field by assumption. reflexivity.
Qed.

(** [split(",")] *)
Lemma split_on_last a : no_comma a = true -> PyStr.split_on "," a = [a].
Proof.
  induction a as [|c a IH]; simpl; [reflexivity | ].
  intros H. apply andb_true_iff in H as [Hc Ha].
  apply negb_true_iff in Hc. now rewrite Hc, (IH Ha).
Qed.

Lemma split_on_first a b :
  no_comma a = true ->
  PyStr.split_on "," (a ++ "," ++ b) = a :: PyStr.split_on "," b.
Proof.
  induction a as [|c a IH]; simpl in *; [reflexivity | ].
  intros H. apply andb_true_iff in H as [Hc Ha].
  apply negb_true_iff in Hc. now rewrite Hc, (IH Ha).
Qed.

(** Digits *)
Lemma digit_not_space c : isdigit c = true -> isspace c = false.
Proof. destruct c as [[] [] [] [] [] [] [] []]; vm_compute; congruence. Qed.

Lemma digit_not_comma c : isdigit c = true -> Ascii.eqb c "," = false.
Proof. destruct c as [[] [] [] [] [] [] [] []]; vm_compute; congruence. Qed.

Lemma digits_no_space s : all isdigit s = true -> no_space s = true.
Proof.
  apply all_impl. intros c H. now rewrite (digit_not_space c H).
Qed.

Lemma digits_no_comma s : all isdigit s = true -> no_comma s = true.
Proof.
  apply all_impl. intros c H. now rewrite (digit_not_comma c H).
Qed.

Lemma string_of_uint_digits d : all isdigit (NilEmpty.string_of_uint d) = true.
Proof. induction d; simpl; auto. Qed.

Lemma dec_eq n : dec n = NilEmpty.string_of_uint (N.to_uint n).
Proof.
  unfold dec. destruct n as [|p]; [reflexivity | ].
  simpl. generalize (DecimalPos.Unsigned.to_uint_nonnil p).
  destruct (Pos.to_uint p); [congruence | reflexivity ..].
Qed.

Lemma dec_digits n : all isdigit (dec n) = true.
Proof. rewrite dec_eq. apply string_of_uint_digits. Qed.

Lemma dec_nonempty n : dec n <> EmptyString.
Proof.
  unfold dec. destruct n as [|p]; [discriminate | ].
  simpl. generalize (DecimalPos.Unsigned.to_uint_nonnil p).
  destruct (Pos.to_uint p); simpl; congruence.
Qed.

(** [int] *)
Lemma int_rstrip_no_space s : no_space s = true -> PyInt.rstrip s = s.
Proof.
  induction s as [|c t IH]; simpl; [reflexivity | ].
  intros H. apply andb_true_iff in H as [Hc Ht]. rewrite (IH Ht).
  apply negb_true_iff in Hc. rewrite Hc. now destruct t.
Qed.

Lemma int_lstrip_no_space s : no_space s = true -> PyInt.lstrip s = s.
Proof.
  destruct s as [|c t]; simpl; [reflexivity | ].
  intros H. apply andb_true_iff in H as [Hc _].
  apply negb_true_iff in Hc. now rewrite Hc.
Qed.

Lemma digits_after_digit s :
  all isdigit s = true -> PyInt.digits true s = Some s.
Proof.
  induction s as [|c t IH]; simpl; [reflexivity | ].
  intros H. apply andb_true_iff in H as [Hc Ht]. now rewrite Hc, (IH Ht).
Qed.

Lemma digits_literal s :
  s <> EmptyString -> all isdigit s = true -> PyInt.digits false s = Some s.
Proof.
  destruct s as [|c t]; [contradiction | ]. simpl. intros _ H.
  apply andb_true_iff in H as [Hc Ht]. now rewrite Hc, (digits_after_digit _ Ht).
Qed.

Lemma of_uint_dec n : NilEmpty.uint_of_string (dec n) = Some (N.to_uint n).
Proof. rewrite dec_eq. apply NilEmpty.usu. Qed.

Lemma Z_of_uint_to_uint n : Z.of_uint (N.to_uint n) = Z.of_N n.
Proof.
  unfold Z.of_uint. f_equal. apply (DecimalN.Unsigned.of_to n).
Qed.

Lemma int_body_dec (n : N) (neg : bool) :
  match PyInt.digits false (dec n) with
  | Some ds =>
      match NilEmpty.uint_of_string ds with
      | Some u => Ok (if neg then Z.opp (Z.of_uint u) else Z.of_uint u)
      | None => Raise ValueError
      end
  | None => Raise ValueError
  end = Ok (if neg then Z.opp (Z.of_N n) else Z.of_N n).
Proof.
  rewrite (digits_literal _ (dec_nonempty n) (dec_digits n)), of_uint_dec.
  now rewrite Z_of_uint_to_uint.
Qed.

(** [int("+c")] and [int("c")] for the decimal writing of [c]. *)
Lemma int_plus_dec n : PyInt.of_str ("+" ++ dec n) = Ok (Z.of_N n).
Proof.
  unfold PyInt.of_str.
  assert (Hs : no_space ("+" ++ dec n) = true).
  { unfold no_space. rewrite all_append.
    fold (no_space (dec n)). now rewrite (digits_no_space _ (dec_digits n)). }
  rewrite (int_lstrip_no_space _ Hs), (int_rstrip_no_space _ Hs).
  simpl. apply (int_body_dec n false).
Qed.

Lemma int_dec n : PyInt.of_str (dec n) = Ok (Z.of_N n).
Proof.
  unfold PyInt.of_str.
  assert (Hs : no_space (dec n) = true) by apply digits_no_space, dec_digits.
  rewrite (int_lstrip_no_space _ Hs), (int_rstrip_no_space _ Hs).
  generalize (dec_nonempty n) (dec_digits n) (int_body_dec n false).
  destruct (dec n) as [|c t]; [contradiction | ].
  intros _ Hd Hbody. simpl in Hd. apply andb_true_iff in Hd as [Hc _].
  assert (E1 : Ascii.eqb c "-" = false)
    by (revert Hc; destruct c as [[] [] [] [] [] [] [] []]; vm_compute; congruence).
  assert (E2 : Ascii.eqb c "+" = false)
    by (revert Hc; destruct c as [[] [] [] [] [] [] [] []]; vm_compute; congruence).
  rewrite E1, E2. exact Hbody.
Qed.

End TextFacts.

(** * Facts about [Multimap] *)

Section MultimapFacts.

Context {V : Type}.
Implicit Types (m : Multimap.t V) (k : string) (v : V).

Lemma contains_In m k : Multimap.contains m k = true <-> In k (Multimap.keys m).
Proof.
  induction m as [|[k' vs] m IH]; simpl; [split; [discriminate | intros []] | ].
  rewrite orb_true_iff, IH, String.eqb_eq. reflexivity.
Qed.

Lemma contains_getitem m k :
  Multimap.contains m k = false <-> Multimap.getitem m k = None.
Proof.
  induction m as [|[k' vs] m IH]; simpl; [split; reflexivity | ].
  destruct (String.eqb k' k); simpl; [split; discriminate | exact IH].
Qed.

Lemma getitem_app_absent m k m' :
  Multimap.contains m k = false ->
  Multimap.getitem (m ++ m')%list k = Multimap.getitem m' k.
Proof.
  induction m as [|[k' vs] m IH]; simpl; [reflexivity | ].
  intros H. apply orb_false_iff in H as [H1 H2]. rewrite H1. now apply IH.
Qed.

Lemma getitem_app_present m k m' :
  Multimap.contains m k = true ->
  Multimap.getitem (m ++ m')%list k = Multimap.getitem m k.
Proof.
  induction m as [|[k' vs] m IH]; simpl; [discriminate | ].
  destruct (String.eqb k' k); simpl; [reflexivity | exact IH].
Qed.

Lemma getitem_append_at m k v k' :
  Multimap.getitem (Multimap.append_at m k v) k' =
  match Multimap.getitem m k' with
  | Some vs => Some (if String.eqb k' k then vs ++ [v] else vs)%list
  | None => None
  end.
Proof.
  induction m as [|[k0 vs] m IH]; simpl; [reflexivity | ].
  destruct (String.eqb_spec k0 k) as [->|Hk]; simpl.
  - destruct (String.eqb_spec k k') as [->|Hk']; [now rewrite String.eqb_refl | ].
    destruct (Multimap.getitem m k') eqn:G; [ | reflexivity].
    destruct (String.eqb_spec k' k); [congruence | reflexivity].
  - destruct (String.eqb_spec k0 k') as [->|Hk']; [ | exact IH].
    destruct (String.eqb_spec k' k); [congruence | reflexivity].
Qed.

(** After [self[k] = v], the values of [k] end in [v] and those of the
    other keys are as before. *)
Lemma values_setitem m k v k' :
  values (Multimap.setitem m k v) k' =
  (values m k' ++ (if String.eqb k' k then [v] else []))%list.
Proof.
  unfold values, Multimap.setitem.
  destruct (Multimap.contains m k) eqn:C; simpl.
  - rewrite getitem_append_at.
    destruct (Multimap.getitem m k') as [vs|] eqn:G.
    + destruct (String.eqb k' k); [reflexivity | now rewrite app_nil_r].
    + destruct (String.eqb_spec k' k) as [->|]; [ | reflexivity].
      apply contains_getitem in G. congruence.
  - destruct (Multimap.contains m k') eqn:C'.
    + rewrite (getitem_app_present _ _ _ C').
      destruct (String.eqb_spec k' k) as [->|]; [congruence | ].
      now rewrite app_nil_r.
    + rewrite (getitem_app_absent _ _ _ C'). simpl.
      apply contains_getitem in C'. rewrite C'.
      rewrite (String.eqb_sym k k'). now destruct (String.eqb k' k).
Qed.

Lemma keys_append_at m k v :
  Multimap.keys (Multimap.append_at m k v) = Multimap.keys m.
Proof.
  induction m as [|[k0 vs] m IH]; simpl; [reflexivity | ].
  destruct (String.eqb k0 k); simpl; [reflexivity | now rewrite IH].
Qed.

(** A new key goes last, a known key keeps its place. *)
Lemma keys_setitem m k v :
  Multimap.keys (Multimap.setitem m k v) =
  if Multimap.contains m k then Multimap.keys m
  else (Multimap.keys m ++ [k])%list.
Proof.
  unfold Multimap.setitem. destruct (Multimap.contains m k); simpl.
  - apply keys_append_at.
  - unfold Multimap.keys. now rewrite map_app.
Qed.

Lemma values_record_all evs : forall m k,
  values (record_all evs m) k =
  (values m k ++ map snd (filter (fun e => String.eqb (fst e) k) evs))%list.
Proof.
  induction evs as [|[k0 v0] evs IH]; intros m k; simpl.
  - now rewrite app_nil_r.
  - rewrite IH, values_setitem, <- app_assoc. f_equal.
    rewrite (String.eqb_sym k0 k). now destruct (String.eqb k k0).
Qed.

Lemma filter_filter {A : Type} (p q : A -> bool) (l : list A) :
  filter p (filter q l) = filter (fun x => q x && p x) l.
Proof.
  induction l as [|x l IH]; simpl; [reflexivity | ].
  destruct (q x); simpl; [destruct (p x) | ]; now rewrite IH.
Qed.

Lemma absent_In ks k : absent ks k = false <-> In k ks.
Proof.
  unfold absent. rewrite negb_false_iff, existsb_exists. split.
  - intros (x & Hx & E). apply String.eqb_eq in E. now subst.
  - intros H. exists k. now rewrite String.eqb_refl.
Qed.

Lemma keys_record_all evs : forall m,
  Multimap.keys (record_all evs m) =
  (Multimap.keys m
     ++ filter (absent (Multimap.keys m)) (first_seen (map fst evs)))%list.
Proof.
  induction evs as [|[k0 v0] evs IH]; intros m; simpl.
  - now rewrite app_nil_r.
  - rewrite IH, keys_setitem, filter_filter.
    destruct (Multimap.contains m k0) eqn:C.
    + assert (A : absent (Multimap.keys m) k0 = false)
        by now apply absent_In, contains_In.
      rewrite A. f_equal. apply filter_ext. intros k.
      destruct (String.eqb_spec k k0) as [->|]; [now rewrite A | reflexivity].
    + assert (A : absent (Multimap.keys m) k0 = true).
      { destruct (absent (Multimap.keys m) k0) eqn:A; [reflexivity | ].
        apply absent_In, contains_In in A. congruence. }
      rewrite A, <- app_assoc. simpl. do 2 f_equal. apply filter_ext.
      intros k. unfold absent. rewrite existsb_app. simpl.
      rewrite orb_false_r, negb_orb. apply andb_comm.
  Qed.

Lemma NoDup_filter {A : Type} (p : A -> bool) (l : list A) :
  NoDup l -> NoDup (filter p l).
Proof.
  induction 1 as [|x l Hx Hl IH]; simpl; [constructor | ].
  destruct (p x); [ | exact IH].
  constructor; [ | exact IH]. intros H. apply filter_In in H as [H _]. contradiction.
Qed.

Lemma NoDup_first_seen ks : NoDup (first_seen ks).
Proof.
  induction ks as [|k ks IH]; simpl; constructor.
  - intros H. apply filter_In in H as [_ H]. now rewrite String.eqb_refl in H.
  - now apply NoDup_filter.
Qed.

Lemma In_values_getitem m k vs :
  In (k, vs) m -> NoDup (Multimap.keys m) -> Multimap.getitem m k = Some vs.
Proof.
  induction m as [|[k0 vs0] m IH]; simpl; [intros [] | ].
  intros [H|H] ND; inversion ND as [|? ? Hk0 ND']; subst.
  - injection H as -> ->. now rewrite String.eqb_refl.
  - destruct (String.eqb_spec k0 k) as [->|]; [ | now apply IH].
    exfalso. apply Hk0. apply (in_map fst) in H. exact H.
Qed.

End MultimapFacts.

(** * Facts about the loop of [git_changed_lines] *)

Section ScanFacts.

Lemma hunk_is_no_marker l :
  String.prefix "@@" l = true -> String.prefix "+++ b/" l = false.
Proof. intros H. apply prefix_iff in H as [r ->]. reflexivity. Qed.

Lemma marker_is_no_hunk x : String.prefix "@@" ("+++ b/" ++ x) = false.
Proof. reflexivity. Qed.

Lemma no_lf_marker x : no_lf ("+++ b/" ++ x) = no_lf x.
Proof. reflexivity. Qed.

(** The body of the loop on each kind of line. *)
Lemma scan_line_hunk st l :
  no_lf l = true -> String.prefix "@@" l = true -> file st <> EmptyString ->
  scan_line st l =
  (r <- hunk_range (PyStr.split l) ;;
   Ok (Scan (file st) (Multimap.setitem (changed_lines st) (file st) r))).
Proof.
  intros Hl Hh Hf. unfold scan_line.
  rewrite (rstrip_no_lf _ Hl), matches_hunk, Hh.
  rewrite (next_file_other _ _ (hunk_is_no_marker _ Hh)).
  apply String.eqb_neq in Hf. now rewrite Hf.
Qed.

Lemma scan_line_no_file st l :
  no_lf l = true -> String.prefix "+++ b/" l = false -> file st = EmptyString ->
  scan_line st l = Ok st.
Proof.
  intros Hl Hm Hf. unfold scan_line.
  rewrite (rstrip_no_lf _ Hl), (next_file_other _ _ Hm), Hf.
  rewrite andb_false_r. destruct st; simpl in *; now subst.
Qed.

Lemma scan_line_other st l :
  no_lf l = true -> String.prefix "+++ b/" l = false ->
  String.prefix "@@" l = false ->
  scan_line st l = Ok st.
Proof.
  intros Hl Hm Hh. unfold scan_line.
  rewrite (rstrip_no_lf _ Hl), (next_file_other _ _ Hm), matches_hunk, Hh.
  now destruct st.
Qed.

Lemma scan_line_source_marker st x :
  no_lf x = true -> source_path x ->
  scan_line st ("+++ b/" ++ x) = Ok (Scan x (changed_lines st)).
Proof.
  intros Hx Hs. unfold scan_line.
  rewrite (rstrip_no_lf ("+++ b/" ++ x)) by exact Hx.
  now rewrite (next_file_source _ _ Hx Hs), matches_hunk, marker_is_no_hunk.
Qed.

Lemma scan_line_other_marker st x :
  no_lf x = true -> ~ source_path x ->
  scan_line st ("+++ b/" ++ x) = Ok (Scan EmptyString (changed_lines st)).
Proof.
  intros Hx Hs. unfold scan_line.
  rewrite (rstrip_no_lf ("+++ b/" ++ x)) by exact Hx.
  now rewrite (next_file_not_source _ _ Hx Hs), matches_hunk, marker_is_no_hunk.
Qed.

(** The loop over two stretches of lines. *)
Lemma scan_app l1 l2 st :
  scan (l1 ++ l2)%list st = (st' <- scan l1 st ;; scan l2 st').
Proof.
  revert st. induction l1 as [|l l1 IH]; intros st; simpl; [reflexivity | ].
  destruct (scan_line st l); simpl; [apply IH | reflexivity].
Qed.

Lemma bind_Ok {A B : Type} (x : result A) (f : A -> result B) (b : B) :
  bind x f = Ok b -> exists a, x = Ok a /\ f a = Ok b.
Proof. destruct x as [a|e]; simpl; [now exists a | discriminate]. Qed.

(** Lines that are no marker leave [file] as it is. *)
Lemma scan_keeps_file ls : forall st st',
  (forall l, In l ls -> no_lf l = true /\ String.prefix "+++ b/" l = false) ->
  scan ls st = Ok st' -> file st' = file st.
Proof.
  induction ls as [|l ls IH]; intros st st' Hls H; simpl in H.
  - now injection H as <-.
  - apply bind_Ok in H as (st1 & H1 & H2).
    destruct (Hls l (or_introl eq_refl)) as [Hl Hm].
    rewrite (IH st1 st' (fun l' Hl' => Hls l' (or_intror Hl')) H2).
    unfold scan_line in H1. rewrite (rstrip_no_lf _ Hl), (next_file_other _ _ Hm) in H1.
    destruct (_ && _) in H1.
    + apply bind_Ok in H1 as (r & _ & H1). now injection H1 as <-.
    + now injection H1 as <-.
Qed.

(** With no file, lines that are no marker of a source file record
    nothing and raise nothing. *)
Lemma scan_no_file ls : forall m,
  (forall l, In l ls -> no_lf l = true
                        /\ forall x, l = "+++ b/" ++ x -> ~ source_path x) ->
  scan ls (Scan EmptyString m) = Ok (Scan EmptyString m).
Proof.
  induction ls as [|l ls IH]; intros m Hls; simpl; [reflexivity | ].
  destruct (Hls l (or_introl eq_refl)) as [Hl Hns].
  assert (E : scan_line (Scan EmptyString m) l = Ok (Scan EmptyString m)).
  { destruct (String.prefix "+++ b/" l) eqn:P.
    - apply prefix_iff in P as [x ->].
      apply scan_line_other_marker; [exact Hl | now apply Hns].
    - now apply scan_line_no_file. }
  rewrite E. simpl. apply IH. intros l' Hl'. apply Hls. now right.
Qed.

(** A range recorded for a file stays recorded. *)
Lemma scan_line_keeps st l st' x r :
  scan_line st l = Ok st' ->
  In r (values (changed_lines st) x) -> In r (values (changed_lines st') x).
Proof.
  unfold scan_line. destruct (_ && _).
  - intros H. apply bind_Ok in H as (r0 & _ & H). injection H as <-. simpl.
    rewrite values_setitem. intros Hin. apply in_or_app. now left.
  - intros H. now injection H as <-.
Qed.

Lemma scan_keeps ls : forall st st' x r,
  scan ls st = Ok st' ->
  In r (values (changed_lines st) x) -> In r (values (changed_lines st') x).
Proof.
  induction ls as [|l ls IH]; intros st st' x r H Hin; simpl in H.
  - now injection H as <-.
  - apply bind_Ok in H as (st1 & H1 & H2).
    apply (IH _ _ _ _ H2). now apply (scan_line_keeps _ _ _ _ _ H1).
Qed.

(** The ranges of the two forms of the new-side span. *)
Lemma hunk_range_start_count fields c d :
  index fields 2 = Ok ("+" ++ dec c ++ "," ++ dec d) ->
  hunk_range fields = Ok (Z.of_N c, (Z.of_N c + Z.of_N d)%Z).
Proof.
  intros H.
  assert (S : PyStr.split_on "," ("+" ++ dec c ++ "," ++ dec d)
              = ["+" ++ dec c; dec d]).
  { change ("+" ++ dec c ++ "," ++ dec d) with (("+" ++ dec c) ++ "," ++ dec d).
    rewrite split_on_first, (split_on_last _ (digits_no_comma _ (dec_digits d))).
    - reflexivity.
    - unfold no_comma. rewrite all_append.
      apply (digits_no_comma _ (dec_digits c)). }
  unfold hunk_range. rewrite H. cbn [bind]. rewrite S.
  cbn [map List.length Nat.leb index nth_error bind int].
  rewrite int_plus_dec. cbn [bind]. now rewrite int_dec.
Qed.

Lemma hunk_range_start_only fields c :
  index fields 2 = Ok ("+" ++ dec c) ->
  hunk_range fields = Ok (Z.of_N c, Z.of_N c).
Proof.
  intros H.
  assert (S : PyStr.split_on "," ("+" ++ dec c) = ["+" ++ dec c]).
  { apply split_on_last. unfold no_comma. rewrite all_append.
    apply (digits_no_comma _ (dec_digits c)). }
  unfold hunk_range. rewrite H. cbn [bind]. rewrite S.
  cbn [map List.length Nat.leb index nth_error bind int app].
  rewrite int_plus_dec. cbn [bind]. now rewrite Z.add_0_r.
Qed.

End ScanFacts.

(** * The extraction of changed lines *)

Section Extraction.

Lemma source_path_nonempty x : source_path x -> x <> EmptyString.
Proof.
  intros [[y ->]|[[y ->]|[y ->]]]; destruct y; discriminate.
Qed.

Lemma hunk_header_is_hunk old new tail :
  String.prefix "@@" (hunk_header old new tail) = true.
Proof. reflexivity. Qed.

Lemma hunk_header_new_span old new tail :
  old <> EmptyString -> no_space old = true ->
  new <> EmptyString -> no_space new = true ->
  index (PyStr.split (hunk_header old new tail)) 2 = Ok new.
Proof.
  intros. unfold hunk_header.
  change ("@@ " ++ old ++ " " ++ new ++ " @@" ++ tail)
    with ("@@" ++ " " ++ old ++ " " ++ new ++ " " ++ ("@@" ++ tail)).
  apply split_third; auto. discriminate.
Qed.

Lemma plus_dec_field c : "+" ++ dec c <> EmptyString /\ no_space ("+" ++ dec c) = true.
Proof.
  split; [discriminate | ]. unfold no_space. rewrite all_append.
  apply (digits_no_space _ (dec_digits c)).
Qed.

Lemma plus_span_field c d :
  "+" ++ dec c ++ "," ++ dec d <> EmptyString
  /\ no_space ("+" ++ dec c ++ "," ++ dec d) = true.
Proof.
  split; [discriminate | ]. unfold no_space. rewrite !all_append.
  fold (no_space (dec c)). fold (no_space (dec d)).
  now rewrite (digits_no_space _ (dec_digits c)), (digits_no_space _ (dec_digits d)).
Qed.

Lemma old_span_field a b :
  old_span a b <> EmptyString /\ no_space (old_span a b) = true.
Proof.
  split; [discriminate | ]. unfold old_span, no_space. rewrite !all_append.
  fold (no_space (dec a)). fold (no_space (dec b)).
  now rewrite (digits_no_space _ (dec_digits a)), (digits_no_space _ (dec_digits b)).
Qed.

Lemma scan_lines_no_lf diff ls1 l ls2 :
  PyStr.splitlines diff = (ls1 ++ l :: ls2)%list -> no_lf l = true.
Proof.
  intros H. apply (splitlines_no_lf diff). rewrite H.
  apply in_or_app. right. now left.
Qed.

Lemma values_In_getitem {V : Type} (m : Multimap.t V) k v :
  In v (values m k) -> exists vs, Multimap.getitem m k = Some vs /\ In v vs.
Proof.
  unfold values. destruct (Multimap.getitem m k) as [vs|]; [ | intros []].
  intros H. now exists vs.
Qed.

(** A hunk header read while [file] is set records its range, and the
    range is in the mapping at the end. *)
Lemma hunk_recorded diff pre h post st r doc :
  PyStr.splitlines diff = (pre ++ h :: post)%list ->
  scan pre scan_init = Ok st ->
  file st <> EmptyString ->
  String.prefix "@@" h = true ->
  hunk_range (PyStr.split h) = Ok r ->
  changed_lines_of diff = Ok doc ->
  exists rs, Multimap.getitem doc (file st) = Some rs /\ In r rs.
Proof.
  intros Hsplit Hpre Hfile Hh Hr Hdoc.
  pose proof (scan_lines_no_lf _ _ _ _ Hsplit) as Hl.
  unfold changed_lines_of in Hdoc. apply bind_Ok in Hdoc as (st' & Hscan & Hdoc).
  injection Hdoc as <-.
  rewrite Hsplit, scan_app, Hpre in Hscan. cbn [bind scan] in Hscan.
  rewrite (scan_line_hunk _ _ Hl Hh Hfile), Hr in Hscan. cbn [bind] in Hscan.
  apply values_In_getitem. apply (scan_keeps _ _ _ _ _ Hscan). cbn [changed_lines].
  rewrite values_setitem, String.eqb_refl. apply in_or_app. right. now left.
Qed.

End Extraction.

(** C4: a hunk header [@@ -a,b +c,d @@] read after the marker [+++ b/x] of a
    source file [x], with no other [+++ b/] marker in between, puts the range
    [(c, c + d)] under [x] in the mapping the extraction ends with, which is
    the mapping written in the string returned; the [+] before [c] is read as
    a sign. *)
Theorem hunk_range_recorded_for_file :
  forall (diff : string) (pre mid post : list string) (x tail : string)
         (a b c d : N) (doc : Multimap.t (Z * Z)),
    PyStr.splitlines diff =
      (pre ++ marker x
           :: mid ++ hunk_header (old_span a b) ("+" ++ dec c ++ "," ++ dec d) tail
           :: post)%list ->
    source_path x ->
    (forall l, In l mid -> String.prefix "+++ b/" l = false) ->
    changed_lines_of diff = Ok doc ->
    git_changed_lines_of diff = Ok (Json.dumps (Multimap.items doc))
    /\ exists rs, Multimap.getitem doc x = Some rs
                  /\ In (Z.of_N c, (Z.of_N c + Z.of_N d)%Z) rs.
Proof.
  intros diff pre mid post x tail a b c d doc Hsplit Hsrc Hmid Hdoc.
  split; [unfold git_changed_lines_of; now rewrite Hdoc | ].
  unfold marker in Hsplit.
  assert (Hx : no_lf x = true).
  { rewrite <- no_lf_marker. exact (scan_lines_no_lf _ _ _ _ Hsplit). }
  assert (Hmid' : forall l, In l mid ->
                  no_lf l = true /\ String.prefix "+++ b/" l = false).
  { intros l Hl. split; [ | now apply Hmid].
    apply (splitlines_no_lf diff). rewrite Hsplit.
    apply in_or_app. right. right. apply in_or_app. now left. }
  pose proof Hdoc as Hscan. unfold changed_lines_of in Hscan.
  apply bind_Ok in Hscan as (st' & Hscan & _).
  rewrite Hsplit, scan_app in Hscan. apply bind_Ok in Hscan as (st1 & Hpre & Hscan).
  cbn [scan] in Hscan. rewrite (scan_line_source_marker _ _ Hx Hsrc) in Hscan.
  cbn [bind] in Hscan. rewrite scan_app in Hscan.
  apply bind_Ok in Hscan as (st3 & Hmid3 & _).
  pose proof (scan_keeps_file _ _ _ Hmid' Hmid3) as Hfile. cbn [file] in Hfile.
  rewrite <- Hfile.
  apply (hunk_recorded diff (pre ++ marker x :: mid)
           (hunk_header (old_span a b) ("+" ++ dec c ++ "," ++ dec d) tail) post).
  - now rewrite Hsplit, <- app_assoc.
  - rewrite scan_app, Hpre. cbn [bind scan]. unfold marker.
    now rewrite (scan_line_source_marker _ _ Hx Hsrc).
  - rewrite Hfile. now apply source_path_nonempty.
  - reflexivity.
  - apply hunk_range_start_count, hunk_header_new_span;
      first [apply old_span_field | apply plus_span_field].
  - exact Hdoc.
Qed.

Lemma hunk_range_recorded_for_file_witness :
  source_path "foo.cpp"
  /\ changed_lines_of example_diff = Ok example_doc
  /\ git_changed_lines_of example_diff = Ok (Json.dumps (Multimap.items example_doc))
  /\ exists rs, Multimap.getitem example_doc "foo.cpp" = Some rs
                /\ In (12, 15)%Z rs.
Proof.
  assert (Hsrc : source_path "foo.cpp") by (left; exists "foo"; reflexivity).
  split; [exact Hsrc | ]. split; [vm_compute; reflexivity | ].
  apply (hunk_range_recorded_for_file example_diff [] []
           ["+++ b/bar.txt"; "@@ -1,0 +2,1 @@"; "+++ b/foo.h"; "@@ -5 +7 @@"]
           "foo.cpp" EmptyString 10 0 12 3 example_doc).
  - vm_compute; reflexivity.
  - exact Hsrc.
  - intros l [].
  - vm_compute; reflexivity.
Defined.

(** C5: a hunk header whose new-side span is [+c], with no count, or [+c,0]
    gives the range [(c, c)]: the count is read as [0], and the range is
    recorded under the current file like any other. *)
Theorem degenerate_range_recorded :
  forall (diff : string) (pre post : list string) (st : scan_state)
         (old new tail : string) (c : N) (doc : Multimap.t (Z * Z)),
    PyStr.splitlines diff = (pre ++ hunk_header old new tail :: post)%list ->
    scan pre scan_init = Ok st ->
    file st <> EmptyString ->
    old <> EmptyString -> no_space old = true ->
    new = "+" ++ dec c \/ new = "+" ++ dec c ++ "," ++ dec 0 ->
    changed_lines_of diff = Ok doc ->
    hunk_range (PyStr.split (hunk_header old new tail)) = Ok (Z.of_N c, Z.of_N c)
    /\ exists rs, Multimap.getitem doc (file st) = Some rs
                  /\ In (Z.of_N c, Z.of_N c) rs.
Proof.
  intros diff pre post st old new tail c doc Hsplit Hpre Hfile Hold1 Hold2 Hnew Hdoc.
  assert (Hr : hunk_range (PyStr.split (hunk_header old new tail))
               = Ok (Z.of_N c, Z.of_N c)).
  { destruct Hnew as [-> | ->].
    - apply hunk_range_start_only, hunk_header_new_span; auto; apply plus_dec_field.
    - rewrite <- (Z.add_0_r (Z.of_N c)) at 2.
      apply (hunk_range_start_count _ c 0), hunk_header_new_span; auto;
        apply plus_span_field. }
  split; [exact Hr | ].
  now apply (hunk_recorded diff pre (hunk_header old new tail) post).
Qed.

Lemma degenerate_range_recorded_witness :
  scan ["+++ b/foo.cpp"; "@@ -10,0 +12,3 @@"; "+++ b/bar.txt"; "@@ -1,0 +2,1 @@";
        "+++ b/foo.h"] scan_init = Ok (Scan "foo.h" [("foo.cpp", [(12, 15)%Z])])
  /\ changed_lines_of example_diff = Ok example_doc
  /\ hunk_range (PyStr.split "@@ -5 +7 @@") = Ok (7, 7)%Z
  /\ exists rs, Multimap.getitem example_doc "foo.h" = Some rs /\ In (7, 7)%Z rs.
Proof.
  split; [vm_compute; reflexivity | ]. split; [vm_compute; reflexivity | ].
  apply (degenerate_range_recorded example_diff
           ["+++ b/foo.cpp"; "@@ -10,0 +12,3 @@"; "+++ b/bar.txt";
            "@@ -1,0 +2,1 @@"; "+++ b/foo.h"] []
           (Scan "foo.h" [("foo.cpp", [(12, 15)%Z])])
           "-5" "+7" EmptyString 7 example_doc).
  - vm_compute; reflexivity.
  - vm_compute; reflexivity.
  - simpl; discriminate.
  - discriminate.
  - vm_compute; reflexivity.
  - left. vm_compute; reflexivity.
  - vm_compute; reflexivity.
Defined.

(** C6: the marker [+++ b/p] of a file that is no source file clears [file]:
    whatever follows, up to the next marker of a source file, records no
    range and raises nothing, and that marker [+++ b/q] sets [file] to
    [q]. *)
Theorem other_marker_ignores_hunks :
  forall (diff : string) (pre mid post : list string) (st : scan_state) (p : string),
    PyStr.splitlines diff = (pre ++ marker p :: mid ++ post)%list ->
    scan pre scan_init = Ok st ->
    ~ source_path p ->
    (forall l x, In l mid -> l = marker x -> ~ source_path x) ->
    scan (pre ++ marker p :: mid) scan_init
      = Ok (Scan EmptyString (changed_lines st))
    /\ forall q post',
         post = marker q :: post' -> source_path q ->
         scan (pre ++ marker p :: mid ++ [marker q]) scan_init
           = Ok (Scan q (changed_lines st)).
Proof.
  intros diff pre mid post st p Hsplit Hpre Hp Hmid. unfold marker in *.
  assert (Hpl : no_lf p = true).
  { rewrite <- no_lf_marker. exact (scan_lines_no_lf _ _ _ _ Hsplit). }
  assert (Hmid' : forall l, In l mid -> no_lf l = true
                    /\ forall x, l = "+++ b/" ++ x -> ~ source_path x).
  { intros l Hl. split; [ | intros x; now apply Hmid].
    apply (splitlines_no_lf diff). rewrite Hsplit.
    apply in_or_app. right. right. apply in_or_app. now left. }
  assert (E : scan (pre ++ ("+++ b/" ++ p)%string :: mid) scan_init
              = Ok (Scan EmptyString (changed_lines st))).
  { rewrite scan_app, Hpre. cbn [bind scan].
    rewrite (scan_line_other_marker _ _ Hpl Hp). cbn [bind].
    now apply scan_no_file. }
  split; [exact E | ].
  intros q post' -> Hq.
  assert (Hql : no_lf q = true).
  { rewrite <- no_lf_marker. apply (splitlines_no_lf diff). rewrite Hsplit.
    apply in_or_app. right. right. apply in_or_app. right. now left. }
  change (pre ++ ("+++ b/" ++ p)%string :: mid ++ [("+++ b/" ++ q)%string])%list
    with (pre ++ (("+++ b/" ++ p)%string :: mid) ++ [("+++ b/" ++ q)%string])%list.
  rewrite app_assoc, scan_app, E. cbn [bind scan].
  now rewrite (scan_line_source_marker _ _ Hql Hq).
Qed.

Lemma take_drop n s : Re.take n s ++ PyStr.drop n s = s.
Proof.
  revert s. induction n as [|n IH]; intros [|c s]; simpl; try reflexivity.
  now rewrite IH.
Qed.

Lemma ends_with_iff suf s : ends_with suf s = true <-> has_suffix suf s.
Proof.
  unfold ends_with, has_suffix. split.
  - intros H. apply andb_true_iff in H as [_ H]. apply String.eqb_eq in H.
    exists (Re.take (String.length s - String.length suf) s).
    pose proof (take_drop (String.length s - String.length suf) s) as T.
    rewrite H in T. now symmetry.
  - intros [y ->]. rewrite length_append.
    replace (String.length y + String.length suf - String.length suf)
      with (String.length y) by lia.
    rewrite drop_append, String.eqb_refl, andb_true_r.
    apply Nat.leb_le. lia.
Qed.

Lemma is_source_path_iff x : is_source_path x = true <-> source_path x.
Proof.
  unfold is_source_path, source_path.
  rewrite !orb_true_iff, !ends_with_iff. tauto.
Qed.

Lemma not_source_path x : is_source_path x = false -> ~ source_path x.
Proof. intros H Hs. apply is_source_path_iff in Hs. congruence. Qed.

Lemma other_marker_ignores_hunks_witness :
  scan ["+++ b/foo.cpp"; "@@ -10,0 +12,3 @@"; "+++ b/bar.txt"; "@@ -1,0 +2,1 @@"]
       scan_init
    = Ok (Scan EmptyString [("foo.cpp", [(12, 15)%Z])])
  /\ scan ["+++ b/foo.cpp"; "@@ -10,0 +12,3 @@"; "+++ b/bar.txt"; "@@ -1,0 +2,1 @@";
           "+++ b/foo.h"] scan_init
    = Ok (Scan "foo.h" [("foo.cpp", [(12, 15)%Z])]).
Proof.
  destruct (other_marker_ignores_hunks example_diff
              ["+++ b/foo.cpp"; "@@ -10,0 +12,3 @@"] ["@@ -1,0 +2,1 @@"]
              ["+++ b/foo.h"; "@@ -5 +7 @@"]
              (Scan "foo.cpp" [("foo.cpp", [(12, 15)%Z])]) "bar.txt")
    as [H1 H2].
  - vm_compute; reflexivity.
  - vm_compute; reflexivity.
  - apply not_source_path. vm_compute; reflexivity.
  - intros l x [<-|[]] E. discriminate E.
  - split; [exact H1 | ].
    apply (H2 "foo.h" ["@@ -5 +7 @@"]); [reflexivity | ].
    right; left. exists "foo". reflexivity.
Defined.

Lemma of_str_raises s e : PyInt.of_str s = Raise e -> e = ValueError.
Proof.
  unfold PyInt.of_str.
  destruct (match PyInt.rstrip (PyInt.lstrip s) with
            | EmptyString => _ | String c t => _ end) as [neg body].
  destruct (PyInt.digits false body) as [ds|]; [ | congruence].
  destruct (NilEmpty.uint_of_string ds); congruence.
Qed.

Lemma hunk_range_bad_number fields f s :
  index fields 2 = Ok f ->
  In s (span_numbers f) -> PyInt.of_str s = Raise ValueError ->
  hunk_range fields = Raise ValueError.
Proof.
  intros Hf Hin Hs. unfold hunk_range. rewrite Hf. cbn [bind].
  unfold span_numbers in Hin.
  destruct (PyStr.split_on "," f) as [|s0 [|s1 rest]]; [destruct Hin | | ].
  - destruct Hin as [<-|[]]. simpl. now rewrite Hs.
  - cbn [firstn] in Hin. cbn [map List.length Nat.leb index nth_error bind int].
    destruct (PyInt.of_str s0) as [a|e] eqn:E0; cbn [bind].
    + destruct Hin as [<-|[<-|[]]]; [congruence | now rewrite Hs].
    + now rewrite (of_str_raises _ _ E0).
Qed.

(** C8: a hunk header read while [file] is set, whose third field has a
    number that [int] refuses, makes the extraction raise [ValueError]:
    nothing is returned, and [tidy] raises it too.  A line that is neither a
    marker nor a hunk header changes nothing and raises nothing. *)
Theorem bad_hunk_number_raises :
  forall (diff : string) (pre post : list string) (st : scan_state)
         (h f s : string),
    PyStr.splitlines diff = (pre ++ h :: post)%list ->
    scan pre scan_init = Ok st ->
    file st <> EmptyString ->
    String.prefix "@@" h = true ->
    index (PyStr.split h) 2 = Ok f ->
    In s (span_numbers f) -> PyInt.of_str s = Raise ValueError ->
    changed_lines_of diff = Raise ValueError
    /\ git_changed_lines_of diff = Raise ValueError
    /\ (forall (util_run : string -> option (list string) -> Z * string * string)
               (util_input_files : list string -> list string)
               (GITHUB_ACTIONS : option string) (a : args) (c : string),
          commit a = Some c ->
          run_stdout (util_run (git_diff_command c) None) = diff ->
          tidy util_run util_input_files GITHUB_ACTIONS a = Raise ValueError)
    /\ (forall l st0, In l (PyStr.splitlines diff) ->
          String.prefix "+++ b/" l = false -> String.prefix "@@" l = false ->
          scan_line st0 l = Ok st0).
Proof.
  intros diff pre post st h f s Hsplit Hpre Hfile Hh Hf Hin Hs.
  pose proof (scan_lines_no_lf _ _ _ _ Hsplit) as Hl.
  assert (E : changed_lines_of diff = Raise ValueError).
  { unfold changed_lines_of. rewrite Hsplit, scan_app, Hpre. cbn [bind scan].
    rewrite (scan_line_hunk _ _ Hl Hh Hfile).
    now rewrite (hunk_range_bad_number _ _ _ Hf Hin Hs). }
  assert (E' : git_changed_lines_of diff = Raise ValueError)
    by (unfold git_changed_lines_of; now rewrite E).
  split; [exact E | ]. split; [exact E' | ]. split.
  - intros util_run util_input_files GITHUB_ACTIONS a c Hc Hrun.
    unfold tidy, line_filter, git_changed_lines. now rewrite Hc, Hrun, E'.
  - intros l st0 Hl0 Hm Hk. apply scan_line_other; auto.
    now apply (splitlines_no_lf diff).
Qed.

Lemma bad_hunk_number_raises_witness :
  In "+2x" (span_numbers "+2x,1")
  /\ PyInt.of_str "+2x" = Raise ValueError
  /\ changed_lines_of bad_number_diff = Raise ValueError
  /\ git_changed_lines_of bad_number_diff = Raise ValueError
  /\ scan_line (Scan "foo.cpp" [("foo.cpp", [(12, 15)%Z])]) "index 1f2e..3d4c"
     = Ok (Scan "foo.cpp" [("foo.cpp", [(12, 15)%Z])]).
Proof.
  destruct (bad_hunk_number_raises bad_number_diff
              ["+++ b/foo.cpp"; "@@ -10,0 +12,3 @@"; "index 1f2e..3d4c"]
              ["+++ b/foo.h"] (Scan "foo.cpp" [("foo.cpp", [(12, 15)%Z])])
              "@@ -20 +2x,1 @@" "+2x,1" "+2x") as (H1 & H2 & _ & H3).
  - vm_compute; reflexivity.
  - vm_compute; reflexivity.
  - simpl; discriminate.
  - vm_compute; reflexivity.
  - vm_compute; reflexivity.
  - vm_compute. left. reflexivity.
  - vm_compute; reflexivity.
  - split; [ | split; [vm_compute; reflexivity | ]].
    + vm_compute. left. reflexivity.
    + split; [exact H1 | ]. split; [exact H2 | ].
      apply H3; [ | vm_compute; reflexivity ..].
      vm_compute. right. right. left. reflexivity.
Defined.

(** Before any [+++ b/] marker nothing is recorded: the lines up to a hunk
    header that no marker precedes leave the loop where it started. *)
Lemma hunk_before_any_marker diff pre h post :
  PyStr.splitlines diff = (pre ++ h :: post)%list ->
  (forall l, In l pre -> String.prefix "+++ b/" l = false) ->
  String.prefix "@@" h = true ->
  scan (pre ++ [h]) scan_init = Ok scan_init
  /\ changed_lines_of diff = (st <- scan post scan_init ;; Ok (changed_lines st)).
Proof.
  intros Hsplit Hpre Hh.
  assert (E : scan (pre ++ [h]) scan_init = Ok scan_init).
  { apply scan_no_file. intros l Hl.
    assert (Hm : String.prefix "+++ b/" l = false).
    { apply in_app_or in Hl as [Hl|[<-|[]]];
        [now apply Hpre | now apply hunk_is_no_marker]. }
    split.
    - apply (splitlines_no_lf diff). rewrite Hsplit.
      apply in_app_or in Hl as [Hl|[<-|[]]]; apply in_or_app;
        [now left | right; now left].
    - intros x E _. rewrite E, prefix_append in Hm. discriminate. }
  split; [exact E | ].
  unfold changed_lines_of. rewrite Hsplit.
  change (pre ++ h :: post)%list with (pre ++ [h] ++ post)%list.
  now rewrite app_assoc, scan_app, E.
Qed.

(** C2, at a diff where it fails: the section of the deleted file has no
    [+++ b/] line, and its hunk is recorded, under the file of the section
    before. *)
Theorem deleted_file_hunk_goes_to_previous_file :
  changed_lines_of deletion_diff = Ok [("a.cpp", [(1, 1)%Z; (0, 0)%Z])].
Proof. vm_compute. reflexivity. Qed.

Lemma scan_hunks ls : forall f m st,
  scan ls (Scan f m) = Ok st ->
  exists evs, hunks_of ls f = Ok evs /\ changed_lines st = record_all evs m.
Proof.
  induction ls as [|l ls IH]; intros f m st H; simpl in H.
  - injection H as <-. now exists [].
  - apply bind_Ok in H as (st1 & H1 & H2). unfold scan_line in H1.
    cbn [file changed_lines] in H1. cbn [hunks_of].
    destruct (_ && _).
    + apply bind_Ok in H1 as (r & Hr & H1). injection H1 as <-.
      apply IH in H2 as (evs & He & Hc). rewrite Hr, He. cbn [bind].
      eexists. split; [reflexivity | exact Hc].
    + injection H1 as <-. now apply IH in H2.
Qed.

Lemma filter_all {A : Type} (p : A -> bool) (l : list A) :
  (forall x, p x = true) -> filter p l = l.
Proof.
  intros Hp. induction l as [|x l IH]; simpl; [reflexivity | ].
  now rewrite Hp, IH.
Qed.

Lemma In_first_seen k ks : In k (first_seen ks) -> In k ks.
Proof.
  induction ks as [|k0 ks IH]; simpl; [auto | ].
  intros [->|H]; [now left | ]. apply filter_In in H as [H _]. right. auto.
Qed.

(** C7: the mapping the extraction ends with holds, under each file, the
    ranges of the hunks recorded for that file, one for each hunk and in the
    order the hunks were met, equal ranges included; the files are in the
    order they were first met, each once and with a range. *)
Theorem ranges_in_encounter_order :
  forall (diff : string) (doc : Multimap.t (Z * Z)),
    changed_lines_of diff = Ok doc ->
    exists evs,
      hunks_of (PyStr.splitlines diff) EmptyString = Ok evs
      /\ Multimap.keys doc = first_seen (map fst evs)
      /\ NoDup (Multimap.keys doc)
      /\ forall k rs, In (k, rs) (Multimap.items doc) ->
           rs = map snd (filter (fun e => String.eqb (fst e) k) evs)
           /\ rs <> [].
Proof.
  intros diff doc H. unfold changed_lines_of in H.
  apply bind_Ok in H as (st & Hscan & H). injection H as <-.
  apply scan_hunks in Hscan as (evs & Hevs & Hdoc).
  assert (Hkeys : Multimap.keys (changed_lines st) = first_seen (map fst evs)).
  { rewrite Hdoc, keys_record_all. simpl. now apply filter_all. }
  assert (Hnd : NoDup (Multimap.keys (changed_lines st)))
    by (rewrite Hkeys; apply NoDup_first_seen).
  exists evs. unfold Multimap.items. repeat split; auto.
  - apply (In_values_getitem _ _ _ H) in Hnd.
    pose proof (values_record_all evs Multimap.empty k) as Hv.
    rewrite <- Hdoc in Hv. unfold values at 1 in Hv. now rewrite Hnd in Hv.
  - intros ->. apply (In_values_getitem _ _ _ H) in Hnd.
    pose proof (values_record_all evs Multimap.empty k) as Hv.
    rewrite <- Hdoc in Hv. unfold values at 1 in Hv. rewrite Hnd in Hv.
    simpl in Hv. symmetry in Hv. apply map_eq_nil in Hv.
    assert (Hk : In k (map fst evs)).
    { apply In_first_seen. rewrite <- Hkeys. apply (in_map fst) in H. exact H. }
    apply in_map_iff in Hk as (e & He & Hin).
    assert (Hf : In e (filter (fun e => String.eqb (fst e) k) evs))
      by (apply filter_In; split; [exact Hin | now apply String.eqb_eq]).
    rewrite Hv in Hf. destruct Hf.
Qed.

Lemma ranges_in_encounter_order_witness :
  changed_lines_of repeated_diff = Ok repeated_doc
  /\ exists evs,
       hunks_of (PyStr.splitlines repeated_diff) EmptyString = Ok evs
       /\ Multimap.keys repeated_doc = first_seen (map fst evs)
       /\ NoDup (Multimap.keys repeated_doc)
       /\ forall k rs, In (k, rs) (Multimap.items repeated_doc) ->
            rs = map snd (filter (fun e => String.eqb (fst e) k) evs)
            /\ rs <> [].
Proof.
  split; [vm_compute; reflexivity | ].
  apply (ranges_in_encounter_order repeated_diff repeated_doc).
  vm_compute; reflexivity.
Defined.

(** * The exit status *)

Section ExitStatus.

Lemma first_line_cons c t :
  first_line (String c t) =
  if Ascii.eqb c LF then EmptyString else String c (first_line t).
Proof.
  unfold first_line. simpl. destruct (Ascii.eqb c LF); [reflexivity | ].
  now destruct (PyStr.split_on LF t).
Qed.

Lemma first_line_append w s :
  no_lf w = true -> first_line (w ++ s) = w ++ first_line s.
Proof.
  induction w as [|c w IH]; [reflexivity | ].
  unfold no_lf. cbn [all append]. fold (no_lf w). intros H.
  apply andb_true_iff in H as [Hc Hw].
  change (negb (Ascii.eqb c LF) = true) in Hc. apply negb_true_iff in Hc.
  now rewrite first_line_cons, Hc, (IH Hw).
Qed.

Lemma first_line_split s : exists t, s = first_line s ++ t.
Proof.
  induction s as [|c s [t IH]]; [now exists EmptyString | ].
  rewrite first_line_cons. destruct (Ascii.eqb c LF).
  - now exists (String c s).
  - exists t. simpl. now rewrite <- IH.
Qed.

(** What [check_output] accepts: [/], then [ warning: ] with no LF before
    it. *)
Lemma warning_shape s :
  matches re_warning s = true <->
  exists w r, s = "/" ++ w ++ " warning: " ++ r /\ no_lf w = true.
Proof.
  rewrite matches_iff. split.
  - intros [st H]. unfold re_warning in H. run_inv.
    do 2 eexists. split; [reflexivity | eassumption].
  - intros (w & r & -> & Hw). eexists. unfold re_warning.
    apply In_run_Cat. eexists. split; [now left | ].
    apply In_run_Cat. eexists. split.
    { apply In_run_Str. eexists. split; reflexivity. }
    apply In_run_Cat. eexists. split.
    { apply In_run_Star. exists w. eexists. repeat split. exact Hw. }
    apply In_run_Str. exists r. split; reflexivity.
Qed.

(** [check_output] sees the first line only. *)
Lemma check_output_first_line s :
  matches re_warning s = matches re_warning (first_line s).
Proof.
  apply eq_true_iff_eq. rewrite !warning_shape. split.
  - intros (w & r & -> & Hw). exists w, (first_line r). split; [ | exact Hw].
    rewrite <- !append_assoc, first_line_append; [reflexivity | ].
    rewrite !no_lf_append, Hw. reflexivity.
  - intros (w & r & E & Hw). destruct (first_line_split s) as [t Ht].
    exists w, (r ++ t). split; [ | exact Hw].
    rewrite Ht at 1. rewrite E. now rewrite !append_assoc.
Qed.

Lemma exit_status_matches stdout :
  exit_status stdout = if matches re_warning stdout then 0%Z else 1%Z.
Proof.
  unfold exit_status, check_output, matches.
  now destruct (rmatch re_warning stdout).
Qed.

End ExitStatus.

(** C1 fails as stated: a line of the output matches the warning pattern
    and [tidy] returns 1, because the line is not the first. *)
Lemma exit_status_ignores_later_lines :
  In late_warning_line (PyStr.split_on LF late_warning_stdout)
  /\ matches re_warning late_warning_line = true
  /\ exists out,
       tidy late_warning_run given_files None late_warning_args = Ok out
       /\ tool_stdout late_warning_run given_files late_warning_args out
          = late_warning_stdout
       /\ status out = 1%Z
       /\ ~ (status out = 0%Z <->
             exists l, In l (PyStr.split_on LF late_warning_stdout)
                       /\ matches re_warning l = true).
Proof.
  split; [vm_compute; right; left; reflexivity | ].
  split; [vm_compute; reflexivity | ].
  eexists. split; [vm_compute; reflexivity | ].
  split; [reflexivity | ]. split; [reflexivity | ].
  cbn [status]. intros [_ H].
  assert (E : 1%Z = 0%Z); [ | discriminate E].
  apply H. exists late_warning_line.
  split; [right; left; reflexivity | vm_compute; reflexivity].
Qed.

(** C1, amended: [tidy] returns 0 when the first line of the tool's output
    matches the warning pattern, that is when the output starts with [/] and
    has [ warning: ] further on before any LF, and 1 when it does not; the
    lines after the first have no part in it. *)
Theorem exit_status_from_first_line :
  forall (util_run : string -> option (list string) -> Z * string * string)
         (util_input_files : list string -> list string)
         (GITHUB_ACTIONS : option string) (a : args) (out : outcome),
    tidy util_run util_input_files GITHUB_ACTIONS a = Ok out ->
    (status out = 0%Z <->
       matches re_warning (first_line (tool_stdout util_run util_input_files a out))
       = true)
    /\ (status out = 1%Z <->
          matches re_warning (first_line (tool_stdout util_run util_input_files a out))
          = false)
    /\ (status out = 0%Z <->
          exists w r, tool_stdout util_run util_input_files a out
                        = "/" ++ w ++ " warning: " ++ r
                      /\ no_lf w = true).
Proof.
  intros util_run util_input_files GITHUB_ACTIONS a out H.
  unfold tidy in H. apply bind_Ok in H as (lines & _ & H). injection H as <-.
  unfold tool_stdout. cbn [status command].
  rewrite <- warning_shape, <- check_output_first_line, exit_status_matches.
  destruct (matches re_warning _); repeat split; congruence.
Qed.

Lemma exit_status_from_first_line_witness :
  exists out,
    tidy late_warning_run given_files None late_warning_args = Ok out
    /\ (status out = 0%Z <->
          matches re_warning (first_line late_warning_stdout) = true)
    /\ (status out = 1%Z <->
          matches re_warning (first_line late_warning_stdout) = false)
    /\ (status out = 0%Z <->
          exists w r, late_warning_stdout = "/" ++ w ++ " warning: " ++ r
                      /\ no_lf w = true).
Proof.
  eexists. split; [vm_compute; reflexivity | ].
  apply (exit_status_from_first_line late_warning_run given_files None
           late_warning_args).
  vm_compute; reflexivity.
Defined.

(** C10: the command [tidy] runs has [--fix] in the place of the fix option
    when [args.fix] is the string [fix], and nothing there for any other
    value and when the argument is absent. *)
Theorem fix_flag_only_for_fix :
  forall (util_run : string -> option (list string) -> Z * string * string)
         (util_input_files : list string -> list string)
         (GITHUB_ACTIONS : option string) (a : args) (out : outcome),
    tidy util_run util_input_files GITHUB_ACTIONS a = Ok out ->
    exists lines,
      line_filter util_run a = Ok lines
      /\ (fix_mode a = Some "fix" ->
          fix_flag a = "--fix" /\ command out = tidy_command "--fix" lines)
      /\ (fix_mode a <> Some "fix" ->
          fix_flag a = EmptyString /\ command out = tidy_command EmptyString lines).
Proof.
  intros util_run util_input_files GITHUB_ACTIONS a out H.
  unfold tidy in H. apply bind_Ok in H as (lines & Hl & H). injection H as <-.
  exists lines. cbn [command]. split; [exact Hl | ].
  unfold fix_flag. destruct (fix_mode a) as [v|].
  - destruct (String.eqb_spec v "fix") as [->|Hv]; split.
    + intros _. now split.
    + intros Hne. now contradiction Hne.
    + intros E. injection E as E. contradiction.
    + intros _. now split.
  - split; [discriminate | intros _; now split].
Qed.

Lemma fix_flag_only_for_fix_witness :
  exists out lines,
    tidy silent_run given_files None fix_args = Ok out
    /\ line_filter silent_run fix_args = Ok lines
    /\ fix_flag fix_args = "--fix"
    /\ command out = tidy_command "--fix" lines.
Proof.
  destruct (tidy silent_run given_files None fix_args) as [out|e] eqn:E;
    [ | vm_compute in E; discriminate E].
  destruct (fix_flag_only_for_fix silent_run given_files None fix_args out E)
    as (lines & Hl & Hfix & _).
  exists out, lines. split; [reflexivity | ]. split; [exact Hl | ].
  now apply Hfix.
Defined.

(** * The annotations for the CI *)

Section Annotations.

Lemma In_annotations prefix ls o :
  In o (annotations prefix ls) <->
  exists l, In l ls /\ annotation prefix l = Some o.
Proof.
  induction ls as [|l ls IH]; simpl.
  - split; [intros [] | intros (l & [] & _)].
  - destruct (annotation prefix l) as [a|] eqn:E; simpl; rewrite IH; split.
    + intros [<-|(l' & H1 & H2)]; [exists l; auto | exists l'; auto].
    + intros (l' & [<-|H1] & H2); [left; congruence | right; now exists l'].
    + intros (l' & H1 & H2). exists l'. auto.
    + intros (l' & [<-|H1] & H2); [congruence | now exists l'].
Qed.

End Annotations.

(** Building a success of a pattern, one construct at a time. *)
Ltac run_build_step :=
  cbn [pos rest caps close_group];
  lazymatch goal with
  | |- In _ (run (Cat _ _) _) => apply In_run_Cat; eexists; split
  | |- In _ (run (Alt _ _) _) =>
      apply In_run_Alt;
      first [left; solve [repeat run_build_step]
            | right; solve [repeat run_build_step]]
  | |- In _ (run (Group _ _) _) =>
      apply In_run_Group; eexists; split; [ | reflexivity]
  | |- In _ (run Bol _) => apply In_run_Bol; split; reflexivity
  | |- In _ (run Eol _) => apply In_run_Eol; split; [left | ]; reflexivity
  | |- In _ (run (Str _) _) => apply In_run_Str; eexists; split; reflexivity
  | |- In _ (run (Star _) _) =>
      apply In_run_Star; do 2 eexists;
      split; [reflexivity | split; [eassumption | reflexivity]]
  | |- In _ (run (Plus _) _) =>
      apply In_run_Plus; do 2 eexists;
      split; [reflexivity | split; [eassumption | split; [eassumption | reflexivity]]]
  end.

Section AnnotationsComplete.

(** A line of the diagnostic form gets an annotation. *)
Lemma annotation_complete prefix path ln col sev msg rule ws1 ws2 ws3 :
  no_lf path = true ->
  all (cset_mem CDigit) ln = true -> ln <> EmptyString ->
  all (cset_mem CDigit) col = true -> col <> EmptyString ->
  all (cset_mem CSpace) ws1 = true -> ws1 <> EmptyString ->
  sev = "error" \/ sev = "warning" ->
  all (cset_mem CSpace) ws2 = true -> ws2 <> EmptyString ->
  no_lf msg = true ->
  all (cset_mem rule_chars) rule = true -> rule <> EmptyString ->
  all (cset_mem CSpace) ws3 = true ->
  exists out,
    annotation prefix
      (path ++ ":" ++ ln ++ ":" ++ col ++ ":" ++ ws1 ++ sev ++ ":" ++ ws2
            ++ msg ++ " [" ++ rule ++ "]" ++ ws3) = Some out.
Proof.
  intros Hpath Hln Hln' Hcol Hcol' Hws1 Hws1' Hsev Hws2 Hws2' Hmsg Hrule Hrule' Hws3.
  unfold no_lf in *.
  assert (exists m, rmatch clang_tidy_pattern
            (path ++ ":" ++ ln ++ ":" ++ col ++ ":" ++ ws1 ++ sev ++ ":" ++ ws2
                  ++ msg ++ " [" ++ rule ++ "]" ++ ws3) = Some m) as [m Hm].
  { rewrite <- (append_nil_r ws3). eapply In_rmatch. unfold clang_tidy_pattern.
    destruct Hsev as [-> | ->]; repeat run_build_step. }
  unfold annotation. rewrite Hm. eexists. reflexivity.
Qed.

End AnnotationsComplete.

(** * Further properties of the script *)

(** ** [Multimap] *)

(** X1: after [m[k] = v], [m[k]] is the list that was under [k], or the empty
    list if [k] was absent, with [v] added at its end; the lists under the
    other keys are as before. *)
Theorem multimap_setitem_lookup :
  forall (V : Type) (m : Multimap.t V) (k : string) (v : V) (k' : string),
    Multimap.getitem (Multimap.setitem m k v) k' =
    if String.eqb k' k then Some (values m k ++ [v])%list
    else Multimap.getitem m k'.
Proof.
  intros V m k v k'. unfold Multimap.setitem, values.
  destruct (Multimap.contains m k) eqn:C; cbn [negb].
  - rewrite getitem_append_at.
    destruct (String.eqb_spec k' k) as [->|Hk].
    + destruct (Multimap.getitem m k) as [vs|] eqn:G; [reflexivity | ].
      apply contains_getitem in G. congruence.
    + now destruct (Multimap.getitem m k').
  - pose proof C as G. apply contains_getitem in G. rewrite G.
    destruct (String.eqb_spec k' k) as [->|Hk].
    + rewrite (getitem_app_absent _ _ _ C). simpl. now rewrite String.eqb_refl.
    + destruct (Multimap.contains m k') eqn:C'.
      * apply getitem_app_present. exact C'.
      * rewrite (getitem_app_absent _ _ _ C'). simpl.
        apply contains_getitem in C'. rewrite C'.
        destruct (String.eqb_spec k k'); [congruence | reflexivity].
Qed.

(** X2: an assignment keeps the keys distinct and in their places, a new key
    going last, and it takes nothing away: what was under a key is still
    under it. *)
Theorem multimap_setitem_keeps_keys :
  forall (V : Type) (m : Multimap.t V) (k : string) (v : V),
    NoDup (Multimap.keys m) ->
    NoDup (Multimap.keys (Multimap.setitem m k v))
    /\ (In k (Multimap.keys m) ->
        Multimap.keys (Multimap.setitem m k v) = Multimap.keys m)
    /\ (~ In k (Multimap.keys m) ->
        Multimap.keys (Multimap.setitem m k v) = (Multimap.keys m ++ [k])%list)
    /\ forall k' v', In v' (values m k') ->
                     In v' (values (Multimap.setitem m k v) k').
Proof.
  intros V m k v ND. rewrite keys_setitem.
  destruct (Multimap.contains m k) eqn:C.
  - assert (Hin : In k (Multimap.keys m)) by now apply contains_In.
    repeat split; auto.
    + intros Hn. contradiction.
    + intros k' v' H. rewrite values_setitem. apply in_or_app. now left.
  - assert (Hn : ~ In k (Multimap.keys m)).
    { intros H. apply contains_In in H. congruence. }
    repeat split; auto.
    + apply NoDup_app; [exact ND | repeat constructor; intros [] | ].
      intros x Hx [<-|[]]. contradiction.
    + intros H. contradiction.
    + intros k' v' H. rewrite values_setitem. apply in_or_app. now left.
Qed.

Lemma multimap_setitem_keeps_keys_witness :
  NoDup (Multimap.keys two_files)
  /\ Multimap.setitem two_files "b.h" (3, 3)%Z
     = [("a.cpp", [(1, 2)%Z]); ("b.h", [(3, 3)%Z; (3, 3)%Z; (3, 3)%Z])]
  /\ NoDup (Multimap.keys (Multimap.setitem two_files "b.h" (3, 3)%Z)).
Proof.
  assert (ND : NoDup (Multimap.keys two_files)).
  { repeat constructor; simpl; intuition discriminate. }
  split; [exact ND | ]. split; [reflexivity | ].
  apply (multimap_setitem_keeps_keys _ two_files "b.h" (3, 3)%Z ND).
Defined.

(** ** The extraction *)

(** X3: a diff in which no line is the marker of a source file gives the
    empty mapping and the string of the empty list, whatever its hunk headers
    look like: nothing is read from a hunk header while no file is set. *)
Theorem no_source_marker_gives_empty_filter :
  forall (diff : string),
    (forall l x, In l (PyStr.splitlines diff) -> l = marker x -> ~ source_path x) ->
    changed_lines_of diff = Ok Multimap.empty
    /\ git_changed_lines_of diff = Ok "[]".
Proof.
  intros diff H.
  assert (E : changed_lines_of diff = Ok Multimap.empty).
  { unfold changed_lines_of, scan_init. rewrite scan_no_file; [reflexivity | ].
    intros l Hl. split; [now apply (splitlines_no_lf diff) | ].
    intros x Hx. now apply (H l x). }
  split; [exact E | ]. unfold git_changed_lines_of. now rewrite E.
Qed.

Lemma no_source_marker_gives_empty_filter_witness :
  changed_lines_of no_source_diff = Ok Multimap.empty
  /\ git_changed_lines_of no_source_diff = Ok "[]".
Proof.
  apply (no_source_marker_gives_empty_filter no_source_diff).
  intros l x Hl E. subst l. apply not_source_path.
  vm_compute in Hl.
  repeat (destruct Hl as [Hl|Hl]; [try discriminate Hl | ]); [ | destruct Hl].
  injection Hl as <-. vm_compute. reflexivity.
Defined.

Lemma scan_raises_iff ls : forall st e,
  scan ls st = Raise e <->
  exists pre h post st',
    ls = (pre ++ h :: post)%list /\ scan pre st = Ok st'
    /\ scan_line st' h = Raise e.
Proof.
  induction ls as [|l ls IH]; intros st e; cbn [scan].
  - split; [discriminate | ].
    intros (pre & h & post & st' & E & _). now destruct pre.
  - destruct (scan_line st l) as [st1|e1] eqn:E1; cbn [bind].
    + rewrite IH. split.
      * intros (pre & h & post & st' & -> & Hpre & Hh).
        exists (l :: pre), h, post, st'. cbn [scan app].
        rewrite E1. now cbn [bind].
      * intros (pre & h & post & st' & E & Hpre & Hh).
        destruct pre as [|l' pre]; cbn [app scan] in *.
        -- injection E as <- <-. injection Hpre as <-. congruence.
        -- injection E as <- ->. rewrite E1 in Hpre. cbn [bind] in Hpre.
           now exists pre, h, post, st'.
    + split.
      * intros H. injection H as <-. now exists [], l, ls, st.
      * intros (pre & h & post & st' & E & Hpre & Hh).
        destruct pre as [|l' pre]; cbn [app scan] in *.
        -- injection E as <- <-. injection Hpre as <-. congruence.
        -- injection E as <- ->. rewrite E1 in Hpre. discriminate Hpre.
Qed.

Lemma scan_line_raises_iff st l e :
  no_lf l = true ->
  scan_line st l = Raise e <->
  String.prefix "@@" l = true /\ file st <> EmptyString
  /\ hunk_range (PyStr.split l) = Raise e.
Proof.
  intros Hl. split.
  - unfold scan_line. rewrite (rstrip_no_lf _ Hl), matches_hunk.
    destruct (String.prefix "@@" l) eqn:P; [ | discriminate].
    rewrite (next_file_other _ _ (hunk_is_no_marker _ P)).
    destruct (String.eqb_spec (file st) EmptyString) as [E|E]; [discriminate | ].
    cbn [andb negb]. destruct (hunk_range (PyStr.split l)); [discriminate | ].
    cbn [bind]. intros H. injection H as <-. auto.
  - intros (P & Hf & Hr). now rewrite (scan_line_hunk _ _ Hl P Hf), Hr.
Qed.

(** X4: on a diff whose lines are shorter than the interpreter's limit on
    the digits of a number, the extraction raises exactly when some hunk
    header, read while a file is set and after lines that raised nothing, has
    a third field that cannot be read, and it raises what reading that field
    raises; writing the mapping out raises nothing more. *)
Theorem extraction_raises_iff :
  forall (diff : string) (e : exn),
    short_lines diff ->
    (changed_lines_of diff = Raise e <->
     exists pre h post st,
       PyStr.splitlines diff = (pre ++ h :: post)%list
       /\ scan pre scan_init = Ok st
       /\ file st <> EmptyString
       /\ String.prefix "@@" h = true
       /\ hunk_range (PyStr.split h) = Raise e)
    /\ (git_changed_lines_of diff = Raise e <-> changed_lines_of diff = Raise e).
Proof.
  intros diff e _. split.
  - unfold changed_lines_of.
    assert (B : forall r : result scan_state,
              (st <- r ;; Ok (changed_lines st)) = Raise e <-> r = Raise e).
    { intros [st|e']; cbn [bind]; split; congruence. }
    rewrite B, scan_raises_iff. split.
    + intros (pre & h & post & st & E & Hpre & Hh).
      apply scan_line_raises_iff in Hh;
        [ | exact (scan_lines_no_lf _ _ _ _ E)].
      destruct Hh as (P & Hf & Hr). now exists pre, h, post, st.
    + intros (pre & h & post & st & E & Hpre & Hf & P & Hr).
      exists pre, h, post, st. repeat split; auto.
      apply scan_line_raises_iff; [exact (scan_lines_no_lf _ _ _ _ E) | auto].
  - unfold git_changed_lines_of.
    destruct (changed_lines_of diff); cbn [bind]; split; congruence.
Qed.

Lemma extraction_raises_iff_witness :
  short_lines short_header_diff
  /\ changed_lines_of short_header_diff = Raise IndexError
  /\ git_changed_lines_of short_header_diff = Raise IndexError.
Proof.
  assert (S : short_lines short_header_diff).
  { intros l Hl. vm_compute in Hl.
    repeat (destruct Hl as [<- | Hl]; [apply Nat.ltb_lt; vm_compute; reflexivity | ]).
    destruct Hl. }
  destruct (extraction_raises_iff short_header_diff IndexError S) as (H1 & H2).
  assert (E : changed_lines_of short_header_diff = Raise IndexError).
  { apply H1.
    exists ["+++ b/foo.cpp"; "@@ -10,0 +12,3 @@"], "@@ -20", ["+++ b/foo.h"],
           (Scan "foo.cpp" [("foo.cpp", [(12, 15)%Z])]).
    repeat split; try (vm_compute; reflexivity). simpl. discriminate. }
  split; [exact S | ]. split; [exact E | ].
  apply H2. exact E.
Defined.

Lemma split_on_nonempty sep s : PyStr.split_on sep s <> [].
Proof.
  destruct s as [|c t]; simpl; [discriminate | ].
  destruct (Ascii.eqb c sep); [discriminate | ].
  destruct (PyStr.split_on sep t); discriminate.
Qed.

(** What [hunk_range] computes once the third field is there: the
    start, and the count if one is written. *)
Lemma hunk_range_of_field fields f :
  nth_error fields 2 = Some f ->
  hunk_range fields =
  match span_numbers f with
  | [s0] => a <- PyInt.of_str s0 ;; Ok (a, (a + 0)%Z)
  | s0 :: s1 :: _ => a <- PyInt.of_str s0 ;; b <- PyInt.of_str s1 ;; Ok (a, (a + b)%Z)
  | [] => Raise IndexError
  end.
Proof.
  intros Hf. unfold hunk_range, index, span_numbers. rewrite Hf. cbn [bind].
  pose proof (split_on_nonempty "," f) as Hne.
  destruct (PyStr.split_on "," f) as [|s0 [|s1 rest]]; [contradiction | | ];
    cbn [firstn map List.length Nat.leb app nth_error bind int];
    destruct (PyInt.of_str s0); reflexivity.
Qed.

(** X5: reading the range of a hunk header raises [IndexError] exactly when
    the line has fewer than three fields, and [ValueError] exactly when the
    start of the third field, or its count if one is written, is refused by
    [int]; what follows a second comma is not read. *)
Theorem hunk_range_error_cases :
  forall (fields : list string),
    (hunk_range fields = Raise IndexError <-> List.length fields < 3)
    /\ (hunk_range fields = Raise ValueError <->
        exists f s, nth_error fields 2 = Some f /\ In s (span_numbers f)
                    /\ PyInt.of_str s = Raise ValueError).
Proof.
  intros fields. destruct (nth_error fields 2) as [f|] eqn:Hf.
  - assert (Hlen : ~ List.length fields < 3).
    { intros H. apply Nat.lt_succ_r, nth_error_None in H. congruence. }
    rewrite (hunk_range_of_field _ _ Hf).
    assert (Hex : forall s, In s (span_numbers f) ->
              PyInt.of_str s = Raise ValueError ->
              exists f' s', Some f = Some f' /\ In s' (span_numbers f')
                            /\ PyInt.of_str s' = Raise ValueError)
      by (intros s Hin Hs; now exists f, s).
    assert (Hinv : forall P : Prop,
              (forall s, In s (span_numbers f) ->
                         PyInt.of_str s = Raise ValueError -> P) ->
              (exists f' s', Some f = Some f' /\ In s' (span_numbers f')
                             /\ PyInt.of_str s' = Raise ValueError) -> P).
    { intros P HP (f' & s' & E & Hin & Hs). injection E as <-. eauto. }
    pose proof (split_on_nonempty "," f) as Hne. unfold span_numbers in Hne.
    destruct (span_numbers f) as [|s0 [|s1 rest]] eqn:S.
    + unfold span_numbers in S.
      destruct (PyStr.split_on "," f) as [|? [|? ?]]; [contradiction | | ];
        discriminate S.
    + destruct (PyInt.of_str s0) as [a|e] eqn:E0; cbn [bind].
      * split; split; try discriminate; try contradiction;
          try (intros _; reflexivity).
        apply Hinv. intros s [<-|[]] Hs. congruence.
      * pose proof (of_str_raises _ _ E0); subst e.
        split; split; try discriminate; try contradiction;
          try (intros _; reflexivity).
        intros _. apply (Hex s0); [now left | exact E0].
    + assert (rest = []); [ | subst rest].
      { pose proof (firstn_le_length 2 (PyStr.split_on "," f)) as L.
        unfold span_numbers in S. rewrite S in L. simpl in L.
        destruct rest; [reflexivity | simpl in L; lia]. }
      destruct (PyInt.of_str s0) as [a|e] eqn:E0; cbn [bind].
      * destruct (PyInt.of_str s1) as [b|e] eqn:E1; cbn [bind].
        -- split; split; try discriminate; try contradiction;
          try (intros _; reflexivity).
           apply Hinv. intros s [<-|[<-|[]]] Hs; congruence.
        -- pose proof (of_str_raises _ _ E1); subst e.
           split; split; try discriminate; try contradiction;
          try (intros _; reflexivity).
           intros _. apply (Hex s1); [right; now left | exact E1].
      * pose proof (of_str_raises _ _ E0); subst e.
        split; split; try discriminate; try contradiction;
          try (intros _; reflexivity).
        intros _. apply (Hex s0); [now left | exact E0].
  - assert (Hlen : List.length fields < 3)
      by now apply Nat.lt_succ_r, nth_error_None.
    unfold hunk_range, index. rewrite Hf. cbn [bind]. split; split; auto.
    + discriminate.
    + intros (f & s & H & _). discriminate.
Qed.

Lemma scan_filter_control ls : forall st,
  (forall l, In l ls -> no_lf l = true) ->
  scan (filter is_control_line ls) st = scan ls st.
Proof.
  induction ls as [|l ls IH]; intros st Hls; [reflexivity | ].
  assert (Hls' : forall l', In l' ls -> no_lf l' = true)
    by (intros l' H; apply Hls; now right).
  cbn [filter scan]. destruct (is_control_line l) eqn:C.
  - cbn [scan]. destruct (scan_line st l); cbn [bind]; [now apply IH | reflexivity].
  - unfold is_control_line in C. apply orb_false_iff in C as [C1 C2].
    rewrite (scan_line_other st l (Hls l (or_introl eq_refl)) C1 C2).
    cbn [bind]. now apply IH.
Qed.

(** X6: only the [+++ b/] markers and the hunk headers count: two diffs with
    the same such lines in the same order give the same mapping and the same
    string, or raise the same exception. *)
Theorem only_markers_and_hunks_matter :
  forall (diff1 diff2 : string),
    filter is_control_line (PyStr.splitlines diff1)
      = filter is_control_line (PyStr.splitlines diff2) ->
    changed_lines_of diff1 = changed_lines_of diff2
    /\ git_changed_lines_of diff1 = git_changed_lines_of diff2.
Proof.
  intros diff1 diff2 H.
  assert (E : changed_lines_of diff1 = changed_lines_of diff2).
  { unfold changed_lines_of.
    rewrite <- (scan_filter_control (PyStr.splitlines diff1))
      by (intros l; apply splitlines_no_lf).
    rewrite <- (scan_filter_control (PyStr.splitlines diff2))
      by (intros l; apply splitlines_no_lf).
    now rewrite H. }
  split; [exact E | ]. unfold git_changed_lines_of. now rewrite E.
Qed.

Lemma only_markers_and_hunks_matter_witness :
  changed_lines_of full_diff = changed_lines_of bare_diff
  /\ git_changed_lines_of full_diff = git_changed_lines_of bare_diff.
Proof.
  apply (only_markers_and_hunks_matter full_diff bare_diff).
  vm_compute. reflexivity.
Defined.

(** ** The files handed to the tool *)

Lemma matches_checked_file f :
  no_lf f = true -> matches re_checked_file f = is_source_path f.
Proof.
  intros Hf. apply eq_true_iff_eq. rewrite matches_iff, is_source_path_iff. split.
  - intros [st H]. unfold re_checked_file, re_suffix in H. run_inv;
      rewrite !no_lf_append in Hf;
      apply andb_true_iff in Hf as [_ Hf]; apply andb_true_iff in Hf as [_ Hf];
      (destruct E as [-> | ->]; [ | discriminate Hf]).
    + left. eexists. reflexivity.
    + right; left. eexists. reflexivity.
    + right; right. eexists. reflexivity.
  - intros Hsrc.
    assert (exists y ext, f = y ++ ext /\ (ext = ".cpp" \/ ext = ".h" \/ ext = ".hpp"))
      as (y & ext & -> & Hext).
    { destruct Hsrc as [[y ->]|[[y ->]|[y ->]]]; eexists; eexists; eauto. }
    rewrite no_lf_append in Hf. apply andb_true_iff in Hf as [Hy _].
    destruct (In_run_suffix 1 (0 + String.length y) EmptyString ext [] Hext)
      as (st & Hst & Hrest).
    rewrite append_nil_r in Hst. exists st. unfold re_checked_file.
    apply In_run_Cat. eexists. split.
    { apply In_run_Star. exists y, ext. repeat split. exact Hy. }
    apply In_run_Cat. exists st. split; [exact Hst | ].
    apply In_run_Eol. split; [now left | reflexivity].
Qed.

(** X7: of the paths the file-list provider gives, [tidy] hands the tool
    those that end in [.cpp], [.h] or [.hpp], in the order given and with
    repetitions kept; the others are dropped. *)
Theorem checked_files_are_source_paths :
  forall (util_input_files : list string -> list string) (a : args),
    (forall f, In f (util_input_files (files a)) -> no_lf f = true) ->
    checked_files util_input_files a
      = filter is_source_path (util_input_files (files a))
    /\ forall f, In f (checked_files util_input_files a) <->
                 In f (util_input_files (files a)) /\ source_path f.
Proof.
  intros util_input_files a H.
  assert (E : checked_files util_input_files a
              = filter is_source_path (util_input_files (files a))).
  { unfold checked_files. apply filter_ext_in.
    intros f Hf. apply matches_checked_file. now apply H. }
  split; [exact E | ].
  intros f. rewrite E, filter_In, is_source_path_iff. reflexivity.
Qed.

Lemma checked_files_are_source_paths_witness :
  checked_files given_files mixed_args
    = ["velox/exec/Task.cpp"; "velox/exec/Task.h"; "velox/vector/Base.hpp"].
Proof.
  destruct (checked_files_are_source_paths given_files mixed_args) as [E _].
  - intros f Hf. vm_compute in Hf.
    repeat (destruct Hf as [<-|Hf]; [vm_compute; reflexivity | ]). destruct Hf.
  - rewrite E. vm_compute. reflexivity.
Defined.

(** ** The annotations *)

Lemma digit_no_lf c : cset_mem CDigit c = true -> cset_mem CDot c = true.
Proof. destruct c as [[] [] [] [] [] [] [] []]; vm_compute; congruence. Qed.

Lemma rule_char_no_lf c : cset_mem rule_chars c = true -> cset_mem CDot c = true.
Proof. destruct c as [[] [] [] [] [] [] [] []]; vm_compute; congruence. Qed.

Lemma no_lf_drop n : forall s, no_lf s = true -> no_lf (PyStr.drop n s) = true.
Proof.
  induction n as [|n IH]; intros [|c s] H; try exact H.
  cbn [PyStr.drop]. apply IH. unfold no_lf in *. cbn [all] in H.
  now apply andb_true_iff in H as [_ H].
Qed.

Lemma no_lf_removeprefix p s :
  no_lf s = true -> no_lf (PyStr.removeprefix p s) = true.
Proof.
  intros H. unfold PyStr.removeprefix.
  destruct (String.prefix p s); [now apply no_lf_drop | exact H].
Qed.

Lemma annotation_text_no_lf sev file ln col rule msg :
  no_lf sev = true -> no_lf file = true -> no_lf ln = true ->
  no_lf col = true -> no_lf rule = true -> no_lf msg = true ->
  no_lf ("::" ++ sev ++ " file=" ++ file ++ ",line=" ++ ln ++ ",col=" ++ col
              ++ ",title=" ++ rule ++ "::" ++ msg) = true.
Proof.
  intros H1 H2 H3 H4 H5 H6. rewrite !no_lf_append, H1, H2, H3, H4, H5, H6.
  reflexivity.
Qed.

(** X8: an annotation is one line, whatever the line it is made from and
    whatever the prefix: it holds no LF, and it starts with [::error file=] or
    with [::warning file=]. *)
Theorem annotation_is_one_line :
  forall (prefix line o : string),
    annotation prefix line = Some o ->
    no_lf o = true
    /\ (String.prefix "::error file=" o = true
        \/ String.prefix "::warning file=" o = true).
Proof.
  intros prefix line o. unfold annotation.
  destruct (rmatch clang_tidy_pattern line) as [m|] eqn:M; [ | discriminate].
  intros H. injection H as <-. apply rmatch_In in M.
  unfold clang_tidy_pattern in M. run_inv;
    unfold group_or_empty, group; cbn [caps lookup Nat.eqb];
    rewrite !take_exact by (simpl; lia);
    (split; [ | first [ left; apply prefix_iff; eexists; reflexivity
                      | right; apply prefix_iff; eexists; reflexivity ]]);
    apply annotation_text_no_lf;
    first [ reflexivity
          | apply no_lf_removeprefix; assumption
          | assumption
          | apply (all_impl _ _ _ digit_no_lf); assumption
          | apply (all_impl _ _ _ rule_char_no_lf); assumption ].
Qed.

Lemma annotation_is_one_line_witness :
  annotation workspace_prefix late_warning_line
    = Some "::warning file=/src/b.cpp,line=3,col=5,title=clang-diagnostic-unused-variable::unused variable 'x'"
  /\ no_lf "::warning file=/src/b.cpp,line=3,col=5,title=clang-diagnostic-unused-variable::unused variable 'x'" = true.
Proof.
  assert (E : annotation workspace_prefix late_warning_line
    = Some "::warning file=/src/b.cpp,line=3,col=5,title=clang-diagnostic-unused-variable::unused variable 'x'")
    by (vm_compute; reflexivity).
  split; [exact E | ].
  apply (annotation_is_one_line workspace_prefix late_warning_line _ E).
Defined.

(** ** The line filter *)

Lemma escape_printable c : all printable (Json.escape c) = true.
Proof. destruct c as [[] [] [] [] [] [] [] []]; vm_compute; reflexivity. Qed.

Lemma escape_all_printable s : all printable (Json.escape_all s) = true.
Proof.
  induction s as [|c s IH]; [reflexivity | ].
  cbn [Json.escape_all]. now rewrite all_append, escape_printable, IH.
Qed.

Lemma dumps_str_printable s : all printable (Json.dumps_str s) = true.
Proof.
  unfold Json.dumps_str. cbn [all]. rewrite all_append, escape_all_printable.
  reflexivity.
Qed.

Lemma join_printable sep l :
  all printable sep = true ->
  (forall x, In x l -> all printable x = true) ->
  all printable (PyStr.join sep l) = true.
Proof.
  intros Hsep. induction l as [|x l IH]; intros Hl; [reflexivity | ].
  cbn [PyStr.join]. destruct l as [|y l]; [apply Hl; now left | ].
  rewrite !all_append, Hsep, (Hl x (or_introl eq_refl)). cbn [andb].
  apply IH. intros z Hz. apply Hl. now right.
Qed.

Lemma dumps_list_printable l :
  (forall x, In x l -> all printable x = true) ->
  all printable (Json.dumps_list l) = true.
Proof.
  intros Hl. unfold Json.dumps_list.
  rewrite !all_append, (join_printable ", " l eq_refl Hl). reflexivity.
Qed.

Lemma digit_printable c : isdigit c = true -> printable c = true.
Proof. destruct c as [[] [] [] [] [] [] [] []]; vm_compute; congruence. Qed.

Lemma string_of_uint_printable d :
  all printable (NilZero.string_of_uint d) = true.
Proof.
  destruct d; try reflexivity;
    apply (all_impl _ _ _ digit_printable), (string_of_uint_digits (_ d)).
Qed.

Lemma to_str_printable z : all printable (PyInt.to_str z) = true.
Proof.
  unfold PyInt.to_str. destruct z as [|p|p]; [reflexivity | | ];
    cbn [Z.to_int NilZero.string_of_int all]; apply string_of_uint_printable.
Qed.

Lemma dumps_printable doc : all printable (Json.dumps doc) = true.
Proof.
  unfold Json.dumps. apply dumps_list_printable.
  intros x Hx. apply in_map_iff in Hx as ([k rs] & <- & _).
  unfold Json.dumps_entry. cbn [fst snd].
  rewrite !all_append, !dumps_str_printable. cbn [andb all].
  rewrite dumps_list_printable; [reflexivity | ].
  intros y Hy. apply in_map_iff in Hy as ([a b] & <- & _).
  unfold Json.dumps_range. apply dumps_list_printable.
  intros z [<-|[<-|[]]]; apply to_str_printable.
Qed.

Lemma printable_no_lf c : printable c = true -> cset_mem CDot c = true.
Proof. destruct c as [[] [] [] [] [] [] [] []]; vm_compute; congruence. Qed.

Lemma quoted_filter_printable s :
  all printable s = true ->
  all printable ("'--line-filter=" ++ s ++ "'") = true.
Proof. intros H. rewrite !all_append, H. reflexivity. Qed.

(** X9: the line filter argument is made of printable ASCII characters only,
    whatever characters the paths of the diff hold, so it has no LF and the
    command stays on one line; without a commit it is empty. *)
Theorem line_filter_is_printable_ascii :
  forall (util_run : string -> option (list string) -> Z * string * string)
         (a : args) (l : string),
    line_filter util_run a = Ok l ->
    all printable l = true
    /\ no_lf l = true
    /\ (commit a = None -> l = EmptyString)
    /\ (commit a <> None ->
        exists doc, l = "'--line-filter=" ++ Json.dumps doc ++ "'").
Proof.
  intros util_run a l H.
  assert (P : all printable l = true
              /\ (commit a = None -> l = EmptyString)
              /\ (commit a <> None ->
                  exists doc, l = "'--line-filter=" ++ Json.dumps doc ++ "'")).
  { unfold line_filter in H. destruct (commit a) as [c|].
    - apply bind_Ok in H as (s & Hs & H). injection H as <-.
      unfold git_changed_lines, git_changed_lines_of in Hs.
      apply bind_Ok in Hs as (m & _ & Hs). injection Hs as <-.
      split; [ | split; [discriminate | intros _; now exists (Multimap.items m)]].
      apply quoted_filter_printable, dumps_printable.
    - injection H as <-. split; [reflexivity | ]. split; [reflexivity | ].
      intros Hc. now contradiction Hc. }
  destruct P as (P1 & P2 & P3). repeat split; auto.
  apply (all_impl _ _ _ printable_no_lf), P1.
Qed.

Lemma line_filter_is_printable_ascii_witness :
  exists l,
    line_filter quiet_diff_run commit_args = Ok l
    /\ all printable l = true /\ no_lf l = true.
Proof.
  destruct (line_filter quiet_diff_run commit_args) as [l|e] eqn:E;
    [ | vm_compute in E; discriminate E].
  exists l. split; [reflexivity | ].
  destruct (line_filter_is_printable_ascii quiet_diff_run commit_args l E)
    as (H1 & H2 & _).
  now split.
Defined.

(** ** The loop, once more *)

(** X10: what comes before the first [+++ b/] line of a diff is not looked
    at: the diff gives what its lines from that marker on give, and hunk
    headers up there are neither recorded nor a cause of error. *)
Theorem lines_before_first_marker_ignored :
  forall (diff : string) (pre post : list string),
    PyStr.splitlines diff = (pre ++ post)%list ->
    (forall l, In l pre -> String.prefix "+++ b/" l = false) ->
    scan pre scan_init = Ok scan_init
    /\ changed_lines_of diff = (st <- scan post scan_init ;; Ok (changed_lines st)).
Proof.
  intros diff pre post Hsplit Hpre.
  assert (E : scan pre scan_init = Ok scan_init).
  { apply scan_no_file. intros l Hl. split.
    - apply (splitlines_no_lf diff). rewrite Hsplit. apply in_or_app. now left.
    - intros x Hx _. apply Hpre in Hl. rewrite Hx, prefix_append in Hl.
      discriminate Hl. }
  split; [exact E | ].
  unfold changed_lines_of. now rewrite Hsplit, scan_app, E.
Qed.

Lemma lines_before_first_marker_ignored_witness :
  changed_lines_of late_marker_diff = Ok [("foo.cpp", [(2, 2)%Z])].
Proof.
  destruct (lines_before_first_marker_ignored late_marker_diff
              ["diff --git a/foo.cpp b/foo.cpp"; "@@ -7 +7 @@"; "@@ malformed"]
              ["+++ b/foo.cpp"; "@@ -2 +2 @@"]) as [_ H].
  - vm_compute. reflexivity.
  - intros l Hl.
    repeat (destruct Hl as [<-|Hl]; [reflexivity | ]). destruct Hl.
  - rewrite H. vm_compute. reflexivity.
Defined.

(** X11: reading on only adds: the mapping at the end has, under every
    file, the ranges the mapping had after any first part of the lines, in
    the same order and followed by the later ones, and its files start with
    the files known then. *)
Theorem extraction_only_appends :
  forall (diff : string) (first rest : list string) (st : scan_state)
         (doc : Multimap.t (Z * Z)),
    PyStr.splitlines diff = (first ++ rest)%list ->
    scan first scan_init = Ok st ->
    changed_lines_of diff = Ok doc ->
    (exists ks, Multimap.keys doc = (Multimap.keys (changed_lines st) ++ ks)%list)
    /\ forall k, exists rs,
         values doc k = (values (changed_lines st) k ++ rs)%list.
Proof.
  intros diff first rest st doc Hsplit Hfirst Hdoc.
  unfold changed_lines_of in Hdoc. apply bind_Ok in Hdoc as (st' & Hscan & Hdoc).
  injection Hdoc as <-. rewrite Hsplit, scan_app, Hfirst in Hscan.
  cbn [bind] in Hscan. destruct st as [f m].
  apply scan_hunks in Hscan as (evs & _ & ->). cbn [changed_lines]. split.
  - rewrite keys_record_all. eexists. reflexivity.
  - intros k. rewrite values_record_all. eexists. reflexivity.
Qed.

Lemma extraction_only_appends_witness :
  exists rs,
    values repeated_doc "a.cpp" = (values [("a.cpp", [(5, 7)%Z; (5, 7)%Z])] "a.cpp" ++ rs)%list.
Proof.
  destruct (extraction_only_appends repeated_diff
              ["+++ b/a.cpp"; "@@ -1 +5,2 @@"; "@@ -9 +5,2 @@"; "+++ b/b.h"]
              ["@@ -1 +1 @@"; "+++ b/a.cpp"; "@@ -3 +2 @@"]
              (Scan "b.h" [("a.cpp", [(5, 7)%Z; (5, 7)%Z])]) repeated_doc)
    as [_ H]; try (vm_compute; reflexivity).
  exact (H "a.cpp").
Defined.

(** X12: a line the loop gets from [splitlines] holds no line boundary, so
    taking LF off its end on line 38 leaves it as it is. *)
Theorem lines_have_no_terminator :
  forall (diff l : string),
    In l (PyStr.splitlines diff) ->
    no_break l = true /\ PyStr.rstrip LF l = l.
Proof.
  intros diff l H. split; [now apply (splitlines_no_break diff) | ].
  apply rstrip_no_lf. now apply (splitlines_no_lf diff).
Qed.

Lemma lines_have_no_terminator_witness :
  In "@@ -5 +7 @@" (PyStr.splitlines example_diff)
  /\ no_break "@@ -5 +7 @@" = true /\ PyStr.rstrip LF "@@ -5 +7 @@" = "@@ -5 +7 @@".
Proof.
  assert (H : In "@@ -5 +7 @@" (PyStr.splitlines example_diff)).
  { vm_compute. do 5 right. left. reflexivity. }
  split; [exact H | ].
  apply (lines_have_no_terminator example_diff _ H).
Defined.

Lemma next_file_source_or_empty cur l :
  cur = EmptyString \/ source_path cur ->
  next_file cur l = EmptyString \/ source_path (next_file cur l).
Proof.
  intros Hcur. unfold next_file.
  destruct (rmatch re_source_file l) as [m|] eqn:M.
  - apply source_file_inv in M as (x & r & _ & _ & Hx & ->). now right.
  - destruct (rmatch re_new_file l); [now left | exact Hcur].
Qed.

Lemma scan_line_source_names st l st' :
  (file st = EmptyString \/ source_path (file st)) ->
  (forall k, In k (Multimap.keys (changed_lines st)) -> source_path k) ->
  scan_line st l = Ok st' ->
  (file st' = EmptyString \/ source_path (file st'))
  /\ (forall k, In k (Multimap.keys (changed_lines st')) -> source_path k).
Proof.
  intros Hf Hk. unfold scan_line.
  pose proof (next_file_source_or_empty (file st) (PyStr.rstrip LF l) Hf) as Hn.
  destruct (matches re_hunk (PyStr.rstrip LF l)); cbn [andb].
  - destruct (String.eqb_spec (next_file (file st) (PyStr.rstrip LF l)) EmptyString)
      as [E|E]; cbn [negb].
    + intros H. injection H as <-. now split.
    + intros H. apply bind_Ok in H as (r & _ & H). injection H as <-.
      cbn [file changed_lines]. split; [exact Hn | ].
      intros k. rewrite keys_setitem.
      destruct (Multimap.contains (changed_lines st) _); [apply Hk | ].
      intros Hin. apply in_app_or in Hin as [Hin|[<-|[]]]; [now apply Hk | ].
      destruct Hn; [contradiction | assumption].
  - intros H. injection H as <-. now split.
Qed.

Lemma scan_source_names ls : forall st st',
  (file st = EmptyString \/ source_path (file st)) ->
  (forall k, In k (Multimap.keys (changed_lines st)) -> source_path k) ->
  scan ls st = Ok st' ->
  forall k, In k (Multimap.keys (changed_lines st')) -> source_path k.
Proof.
  induction ls as [|l ls IH]; intros st st' Hf Hk H; cbn [scan] in H.
  - now injection H as <-.
  - apply bind_Ok in H as (st1 & H1 & H2).
    destruct (scan_line_source_names _ _ _ Hf Hk H1) as [Hf1 Hk1].
    now apply (IH st1 st').
Qed.

(** X13: every file named in the mapping the extraction returns has a path
    that ends in [.cpp], [.h] or [.hpp], and so is not empty: no range is
    ever recorded under another name. *)
Theorem filter_names_are_source_paths :
  forall (diff : string) (doc : Multimap.t (Z * Z)) (k : string),
    changed_lines_of diff = Ok doc ->
    In k (Multimap.keys doc) ->
    source_path k /\ k <> EmptyString.
Proof.
  intros diff doc k H Hin. unfold changed_lines_of in H.
  apply bind_Ok in H as (st & Hscan & H). injection H as <-.
  assert (Hs : source_path k).
  { apply (scan_source_names (PyStr.splitlines diff) scan_init st);
      [now left | intros k' [] | exact Hscan | exact Hin]. }
  split; [exact Hs | now apply source_path_nonempty].
Qed.

Lemma filter_names_are_source_paths_witness :
  changed_lines_of deletion_diff = Ok [("a.cpp", [(1, 1)%Z; (0, 0)%Z])]
  /\ source_path "a.cpp" /\ "a.cpp" <> EmptyString.
Proof.
  assert (E : changed_lines_of deletion_diff = Ok [("a.cpp", [(1, 1)%Z; (0, 0)%Z])])
    by (vm_compute; reflexivity).
  split; [exact E | ].
  apply (filter_names_are_source_paths deletion_diff _ "a.cpp" E).
  now left.
Defined.

(** * The extraction on the objects of the process *)

Section StoreFacts.

Lemma load_lt h a o : Store.load h a = Some o -> a < List.length h.
Proof. intros H. apply nth_error_Some. unfold Store.load in H. congruence. Qed.

Lemma length_store h a o : List.length (Store.store h a o) = List.length h.
Proof.
  revert a. induction h as [|x h IH]; intros [|a]; simpl; auto.
Qed.

Lemma load_store_same h a o :
  a < List.length h -> Store.load (Store.store h a o) a = Some o.
Proof.
  revert a. induction h as [|x h IH]; intros [|a]; simpl; intros H;
    try lia; [reflexivity | ].
  apply IH. lia.
Qed.

Lemma load_store_other h a b o :
  a <> b -> Store.load (Store.store h a o) b = Store.load h b.
Proof.
  revert a b. induction h as [|x h IH]; intros [|a] [|b] H; simpl;
    try reflexivity; try congruence.
  apply IH. congruence.
Qed.

Lemma load_alloc_old h o a :
  a < List.length h -> Store.load (h ++ [o])%list a = Store.load h a.
Proof. intros H. unfold Store.load. now apply nth_error_app1. Qed.

Lemma load_alloc_new h o : Store.load (h ++ [o])%list (List.length h) = Some o.
Proof.
  unfold Store.load. rewrite nth_error_app2 by lia.
  now rewrite Nat.sub_diag.
Qed.

Lemma firstn_store n h a o :
  n <= a -> firstn n (Store.store h a o) = firstn n h.
Proof.
  revert n a. induction h as [|x h IH]; intros [|n] [|a] H; simpl;
    try reflexivity; try lia.
  f_equal. apply IH. lia.
Qed.

Lemma firstn_alloc n (h : Store.heap) o :
  n <= List.length h -> firstn n (h ++ [o])%list = firstn n h.
Proof.
  intros H. rewrite firstn_app.
  replace (n - List.length h) with 0 by lia. simpl. apply app_nil_r.
Qed.

(** The entries of a [dict] and the mapping they stand for have the same
    keys. *)
Lemma address_of_None n h es m key :
  Forall2 (holds n h) es m ->
  Store.address_of es key = None -> Multimap.contains m key = false.
Proof.
  induction 1 as [|[k a] [k' vs] es m [Hk _] _ IH]; simpl; [reflexivity | ].
  simpl in Hk. subst k'.
  destruct (String.eqb k key); [discriminate | exact IH].
Qed.

Lemma address_of_Some n h es m key l :
  Forall2 (holds n h) es m ->
  Store.address_of es key = Some l ->
  Multimap.contains m key = true /\ In l (map snd es).
Proof.
  induction 1 as [|[k a] [k' vs] es m [Hk _] _ IH]; simpl; [discriminate | ].
  simpl in Hk. subst k'.
  destruct (String.eqb k key).
  - intros E. injection E as <-. auto.
  - intros E. destruct (IH E). auto.
Qed.

(** A change at an address no entry has leaves what the entries hold. *)
Lemma holds_frame n h h' es m :
  (forall a, In a (map snd es) -> Store.load h' a = Store.load h a) ->
  Forall2 (holds n h) es m -> Forall2 (holds n h') es m.
Proof.
  intros F H. induction H as [|e kv es m (Hk & Hn & Hl) _ IH]; constructor.
  - repeat split; auto. rewrite F; [exact Hl | now left].
  - apply IH. intros a Ha. apply F. now right.
Qed.

(** Line 30: the value appended to the list of the key, in place. *)
Lemma append_in_place n h es m key l value :
  Forall2 (holds n h) es m ->
  NoDup (map snd es) ->
  Store.address_of es key = Some l ->
  exists vs,
    Store.load h l = Some (Store.PyList vs)
    /\ Forall2 (holds n (Store.store h l (Store.PyList (vs ++ [value])%list)))
               es (Multimap.append_at m key value).
Proof.
  induction 1 as [|[k a] [k' vs] es m (Hk & Hn & Hl) HF IH]; simpl;
    [discriminate | ].
  simpl in Hk, Hn, Hl. subst k'. intros ND. inversion ND as [|? ? Ha ND']; subst.
  destruct (String.eqb k key) eqn:K.
  - intros E. injection E as <-. exists vs. split; [exact Hl | ].
    constructor.
    + repeat split; auto. simpl.
      apply load_store_same. exact (load_lt _ _ _ Hl).
    + apply (holds_frame n h); [ | exact HF].
      intros b Hb. apply load_store_other. intros ->. contradiction.
  - intros E. destruct (IH ND' E) as (ws & Hw & HF').
    exists ws. split; [exact Hw | ].
    constructor; [ | exact HF'].
    repeat split; auto. simpl.
    rewrite load_store_other; [exact Hl | ].
    intros ->. apply Ha.
    destruct (address_of_Some _ _ _ _ _ _ HF E) as [_ Hin]. exact Hin.
Qed.

(** [__setitem__] on the heap does what it does on the mapping, and leaves
    the objects below [n] as they were. *)
Lemma setitem_in_represents n h d m key value :
  represents n h d m ->
  exists h',
    setitem_in h d key value = Some h'
    /\ represents n h' d (Multimap.setitem m key value)
    /\ firstn n h' = firstn n h
    /\ List.length h <= List.length h'.
Proof.
  intros (Hn & es & Hd & HF & ND).
  pose proof (load_lt _ _ _ Hd) as Hdl.
  unfold setitem_in, Multimap.setitem. rewrite Hd.
  destruct (Store.address_of es key) as [l|] eqn:A.
  - destruct (address_of_Some _ _ _ _ _ _ HF A) as [C Hin]. rewrite C. simpl.
    destruct (append_in_place n h es m key l value HF ND A) as (vs & Hl & HF').
    rewrite Hl. eexists. split; [reflexivity | ].
    assert (Hld : l <> d) by (intros ->; congruence).
    assert (Hnl : n <= l).
    { clear - HF Hin. induction HF as [|e kv es m (_ & H & _) _ IH];
        simpl in Hin; [contradiction | ].
      destruct Hin as [<-|Hin]; auto. }
    split; [ | split; [now apply firstn_store | rewrite length_store; lia]].
    split; [exact Hn | ]. exists es.
    split; [rewrite load_store_other; auto | ]. split; [exact HF' | exact ND].
  - rewrite (address_of_None _ _ _ _ _ HF A). simpl.
    eexists. split; [reflexivity | ].
    assert (Hold : forall a, In a (map snd es) -> a < List.length h /\ a <> d).
    { assert (Hd' : forall vs, Store.load h d <> Some (Store.PyList vs))
        by (intros vs E; congruence).
      clear - HF Hd'. induction HF as [|e kv es m (_ & _ & H) _ IH];
        simpl; [contradiction | ].
      intros a [<-|Ha]; [ | auto].
      split; [exact (load_lt _ _ _ H) | ].
      intros E. rewrite E in H. exact (Hd' _ H). }
    split; [ | split].
    + split; [exact Hn | ]. exists (es ++ [(key, List.length h)])%list.
      split; [apply load_store_same; rewrite length_app; simpl; lia | ].
      split.
      * apply Forall2_app.
        -- apply (holds_frame n h); [ | exact HF].
           intros a Ha. destruct (Hold a Ha) as [H1 H2].
           rewrite load_store_other by congruence. now apply load_alloc_old.
        -- constructor; [ | constructor].
           repeat split; simpl; [lia | ].
           rewrite load_store_other by lia. apply load_alloc_new.
      * rewrite map_app. simpl. apply NoDup_app; [exact ND | | ].
        -- constructor; [intros [] | constructor].
        -- intros a Ha [<-|[]]. destruct (Hold _ Ha). lia.
    + rewrite firstn_store by exact Hn. apply firstn_alloc. lia.
    + rewrite length_store, length_app. simpl. lia.
Qed.

(** The loop on the heap runs as the loop on the mapping. *)
Lemma scan_in_represents n lines :
  forall h d f m,
    represents n h d m ->
    exists h',
      firstn n h' = firstn n h
      /\ List.length h <= List.length h'
      /\ match scan lines (Scan f m) with
         | Ok st => scan_in h d f lines = Some (Ok (file st), h')
                    /\ represents n h' d (changed_lines st)
         | Raise e => scan_in h d f lines = Some (Raise e, h')
         end.
Proof.
  induction lines as [|l ls IH]; intros h d f m R.
  - exists h. simpl. auto.
  - cbn [scan scan_in]. unfold scan_line, scan_line_in. cbn [file changed_lines].
    destruct (matches re_hunk (PyStr.rstrip LF l)
              && negb (String.eqb (next_file f (PyStr.rstrip LF l)) EmptyString)).
    + destruct (hunk_range (PyStr.split (PyStr.rstrip LF l))) as [r|e];
        cbn [bind].
      * destruct (setitem_in_represents n h d m
                    (next_file f (PyStr.rstrip LF l)) r R)
          as (h1 & E1 & R1 & F1 & L1).
        rewrite E1.
        destruct (IH h1 d (next_file f (PyStr.rstrip LF l)) _ R1)
          as (h' & F' & L' & H').
        exists h'. split; [congruence | ]. split; [lia | exact H'].
      * exists h. auto.
    + cbn [bind]. apply IH. exact R.
Qed.

Lemma items_in_represents n h es m :
  Forall2 (holds n h) es m -> items_in h es = Some (Multimap.items m).
Proof.
  unfold Multimap.items.
  induction 1 as [|[k a] [k' vs] es m (Hk & _ & Hl) _ IH]; simpl;
    [reflexivity | ].
  simpl in Hk, Hl. subst k'. now rewrite Hl, IH.
Qed.

(** Whatever the heap of the process, the call returns what the extraction
    gives on the text, and leaves the objects that were there as they were. *)
Lemma git_changed_lines_in_spec h diff :
  exists new_objects,
    git_changed_lines_in h diff
    = Some (git_changed_lines_of diff, (h ++ new_objects)%list).
Proof.
  unfold git_changed_lines_in, Store.alloc.
  assert (R : represents (List.length h) (h ++ [Store.Dict []])%list
                         (List.length h) Multimap.empty).
  { split; [lia | ]. exists []. split; [apply load_alloc_new | ].
    split; constructor. }
  destruct (scan_in_represents (List.length h) (PyStr.splitlines diff)
              _ _ EmptyString _ R) as (h' & F & L & H).
  rewrite firstn_alloc, firstn_all in F by lia.
  assert (Hh : h' = (h ++ skipn (List.length h) h')%list).
  { rewrite <- F at 1. symmetry. rewrite F at 1.
    rewrite <- F at 1. apply firstn_skipn. }
  exists (skipn (List.length h) h').
  unfold git_changed_lines_of, changed_lines_of, scan_init.
  destruct (scan (PyStr.splitlines diff) (Scan EmptyString Multimap.empty))
    as [st|e]; cbn [bind].
  - destruct H as (E & _ & es & Hd & HF & _). rewrite E, Hd.
    rewrite (items_in_represents _ _ _ _ HF). now rewrite <- Hh.
  - rewrite H. now rewrite <- Hh.
Qed.

End StoreFacts.

(** C9: [git_changed_lines] is a function of the text of the diff.  Whatever
    objects the process holds when it is called, the call returns, or raises,
    what the extraction gives on the text, it leaves every object that was
    there as it was, and it only adds objects of its own.  So two calls on the
    same text give the same result: from any two heaps, and one after the
    other in the same process, the second in the heap the first has left,
    also when the first has raised with its mapping half filled. *)
Theorem extraction_keeps_no_state :
  forall (diff : string) (h1 h2 : Store.heap),
    exists (r : result string) (new1 new2 new3 : Store.heap),
      git_changed_lines_in h1 diff = Some (r, (h1 ++ new1)%list)
      /\ git_changed_lines_in h2 diff = Some (r, (h2 ++ new2)%list)
      /\ git_changed_lines_in (h1 ++ new1)%list diff
         = Some (r, ((h1 ++ new1) ++ new3)%list)
      /\ r = git_changed_lines_of diff.
Proof.
  intros diff h1 h2.
  destruct (git_changed_lines_in_spec h1 diff) as [new1 H1].
  destruct (git_changed_lines_in_spec h2 diff) as [new2 H2].
  destruct (git_changed_lines_in_spec (h1 ++ new1)%list diff) as [new3 H3].
  exists (git_changed_lines_of diff), new1, new2, new3. auto.
Qed.

Lemma extraction_keeps_no_state_witness :
  exists new1 new2 : Store.heap,
    git_changed_lines_in [] example_diff
    = Some (git_changed_lines_of example_diff, new1)
    /\ git_changed_lines_in used_heap example_diff
       = Some (git_changed_lines_of example_diff, (used_heap ++ new2)%list).
Proof.
  destruct (extraction_keeps_no_state example_diff [] used_heap)
    as (r & new1 & new2 & new3 & H1 & H2 & _ & ->).
  exists new1, new2. split; [exact H1 | exact H2].
Defined.

(** * The annotation of a diagnostic *)

Section DiagnosticFacts.

(** Two ways to cut a text in two: one front starts the other. *)
Lemma append_eq_cases (x a y b : string) :
  x ++ a = y ++ b ->
  (exists z, y = x ++ z /\ a = z ++ b) \/ (exists z, x = y ++ z /\ b = z ++ a).
Proof.
  revert y. induction x as [|c x IH]; intros y H.
  - left. exists y. split; [reflexivity | exact H].
  - destruct y as [|c' y].
    + right. exists (String c x). split; [reflexivity | symmetry; exact H].
    + simpl in H. injection H as -> H.
      destruct (IH _ H) as [(z & -> & ->)|(z & -> & ->)];
        [left | right]; exists z; split; reflexivity.
Qed.

Lemma all_sep (p : ascii -> bool) (c : ascii) (a d : string) :
  p c = false -> all p (a ++ String c d) = false.
Proof.
  intros H. rewrite all_append. cbn [all]. rewrite H. apply andb_false_r.
Qed.

(** A text cut at the last place of a character: what follows has none. *)
Lemma last_sep_unique (p : ascii -> bool) (c : ascii) (a a' d d' : string) :
  p c = false -> all p d = true -> all p d' = true ->
  a ++ String c d = a' ++ String c d' -> a = a' /\ d = d'.
Proof.
  intros Hc. revert a'.
  induction a as [|x a IH]; intros [|x' a'] Hd Hd' H; simpl in H.
  - injection H as H. auto.
  - injection H as _ H. rewrite H, all_sep in Hd by exact Hc. discriminate.
  - injection H as _ H. rewrite <- H, all_sep in Hd' by exact Hc. discriminate.
  - injection H as -> H. destruct (IH _ Hd Hd' H) as [-> ->]. auto.
Qed.

(** A text cut where a run of characters of one kind ends. *)
Lemma span_unique (p : ascii -> bool) (a a' b b' : string) (c c' : ascii) :
  all p a = true -> all p a' = true -> p c = false -> p c' = false ->
  a ++ String c b = a' ++ String c' b' ->
  a = a' /\ String c b = String c' b'.
Proof.
  revert a'. induction a as [|x a IH]; intros [|x' a'] Ha Ha' Hc Hc' H;
    simpl in H; cbn [all] in Ha, Ha'.
  - auto.
  - injection H as E _. apply andb_true_iff in Ha' as [Hx _]. congruence.
  - injection H as E _. apply andb_true_iff in Ha as [Hx _]. congruence.
  - injection H as -> H.
    apply andb_true_iff in Ha as [_ Ha]. apply andb_true_iff in Ha' as [_ Ha'].
    destruct (IH _ Ha Ha' Hc Hc' H) as [-> E]. auto.
Qed.

(** White space before a character that is none is all of the run. *)
Lemma space_run_empty (w x y : string) (c : ascii) :
  all isspace w = true -> isspace c = false ->
  w ++ x = String c y -> w = EmptyString /\ x = String c y.
Proof.
  destruct w as [|d w]; simpl; [auto | ].
  intros Hw Hc H. injection H as -> _.
  apply andb_true_iff in Hw as [Hd _]. congruence.
Qed.

Lemma no_colon_digit_cons (x : ascii) (s : string) :
  Ascii.eqb x ":" = false -> no_colon_digit s = true ->
  no_colon_digit (String x s) = true.
Proof.
  intros Hx Hs. cbn [no_colon_digit]. rewrite Hx, Hs. now destruct s.
Qed.

Lemma no_colon_digit_occurrence (z v : string) (d : ascii) :
  isdigit d = true -> no_colon_digit (z ++ String ":" (String d v)) = false.
Proof.
  intros Hd. induction z as [|x z IH].
  - cbn [append no_colon_digit]. rewrite Hd. reflexivity.
  - change (String x z ++ String ":" (String d v))
      with (String x (z ++ String ":" (String d v))).
    cbn [no_colon_digit]. rewrite IH. apply andb_false_r.
Qed.

Lemma no_colon_digit_append (a b : string) :
  no_colon_digit a = true -> no_colon_digit b = true ->
  match b with String y _ => isdigit y = false | EmptyString => True end ->
  no_colon_digit (a ++ b) = true.
Proof.
  intros Ha Hb Hy. induction a as [|x a IH]; [exact Hb | ].
  cbn [no_colon_digit] in Ha. apply andb_true_iff in Ha as [Hx Ha].
  change (String x a ++ b) with (String x (a ++ b)). cbn [no_colon_digit].
  rewrite (IH Ha), andb_true_r.
  destruct a as [|x' a]; [ | exact Hx].
  cbn [append]. destruct b as [|y b]; [reflexivity | ].
  rewrite Hy. now rewrite andb_false_r.
Qed.

Lemma colon_free_no_colon_digit (s : string) :
  all (fun c => negb (Ascii.eqb c ":")) s = true -> no_colon_digit s = true.
Proof.
  induction s as [|c s IH]; [reflexivity | ].
  cbn [all]. intros H. apply andb_true_iff in H as [Hc Hs].
  apply negb_true_iff in Hc. apply no_colon_digit_cons; auto.
Qed.

Lemma rule_char_no_colon c :
  cset_mem rule_chars c = true -> negb (Ascii.eqb c ":") = true.
Proof. destruct c as [[] [] [] [] [] [] [] []]; vm_compute; congruence. Qed.

Lemma no_space_no_lf s : no_space s = true -> no_lf s = true.
Proof.
  apply all_impl. intros c.
  destruct c as [[] [] [] [] [] [] [] []]; vm_compute; congruence.
Qed.

(** The start of a diagnostic, up to the colon after the column, is read in
    one way. *)
Lemma header_unique (path ln col p n c : string) :
  all isdigit ln = true -> all isdigit col = true ->
  all isdigit n = true -> all isdigit c = true ->
  path ++ ":" ++ ln ++ ":" ++ col ++ ":" = p ++ ":" ++ n ++ ":" ++ c ++ ":" ->
  path = p /\ ln = n /\ col = c.
Proof.
  intros Hln Hcol Hn Hc H.
  assert (E1 : (path ++ ":" ++ ln ++ ":" ++ col) ++ String ":" EmptyString
               = (p ++ ":" ++ n ++ ":" ++ c) ++ String ":" EmptyString)
    by (rewrite !append_assoc; exact H).
  apply (last_sep_unique isdigit) in E1 as [E1 _]; try reflexivity.
  assert (E2 : (path ++ ":" ++ ln) ++ String ":" col
               = (p ++ ":" ++ n) ++ String ":" c)
    by (rewrite !append_assoc; exact E1).
  apply (last_sep_unique isdigit) in E2 as [E2 E3];
    [ | reflexivity | assumption | assumption].
  apply (last_sep_unique isdigit ":" path p ln n) in E2 as [E4 E5];
    [ | reflexivity | assumption | assumption].
  auto.
Qed.

(** What a success of the diagnostic pattern has read, and in which groups. *)
Lemma clang_tidy_pattern_inv (line : string) (m : mstate) :
  In m (run clang_tidy_pattern (MState 0 line [])) ->
  exists path ln col sev msg rule ws1 ws2 ws3,
    line = path ++ ":" ++ ln ++ ":" ++ col ++ ":" ++ ws1 ++ sev ++ ":" ++ ws2
                ++ msg ++ " [" ++ rule ++ "]" ++ ws3
    /\ (no_lf path = true /\ no_lf msg = true)
    /\ (sev = "error" \/ sev = "warning")
    /\ (all isdigit ln = true /\ ln <> EmptyString)
    /\ (all isdigit col = true /\ col <> EmptyString)
    /\ (all (cset_mem rule_chars) rule = true /\ rule <> EmptyString)
    /\ (all isspace ws1 = true /\ ws1 <> EmptyString)
    /\ (all isspace ws2 = true /\ ws2 <> EmptyString)
    /\ all isspace ws3 = true
    /\ (group_or_empty m 1 = path /\ group_or_empty m 2 = ln
        /\ group_or_empty m 3 = col /\ group_or_empty m 4 = sev
        /\ group_or_empty m 5 = msg /\ group_or_empty m 6 = rule).
Proof.
  intros M. unfold clang_tidy_pattern in M. run_inv;
    unfold group_or_empty, group; cbn [caps lookup Nat.eqb];
    rewrite !take_exact by (simpl; lia);
    do 6 eexists; exists w3, w1, (w ++ r5);
    (split; [reflexivity | ]);
    (assert (W : all isspace (w ++ r5) = true)
       by (rewrite all_append, (A : all isspace w = true);
           destruct E as [-> | ->]; reflexivity));
    unfold no_lf; auto 20.
Qed.

(** A diagnostic of the six texts is read back as the six texts. *)
Lemma diagnostic_unique (path ln col sev msg rule : string)
    (p n c s g u w1 w2 w3 : string) :
  diagnostic_fields path ln col sev msg rule ->
  (all isdigit n = true /\ n <> EmptyString) ->
  (all isdigit c = true /\ c <> EmptyString) ->
  (s = "error" \/ s = "warning") ->
  (all (cset_mem rule_chars) u = true /\ u <> EmptyString) ->
  (all isspace w1 = true /\ w1 <> EmptyString) ->
  (all isspace w2 = true /\ w2 <> EmptyString) ->
  all isspace w3 = true ->
  diagnostic_line path ln col sev msg rule
  = p ++ ":" ++ n ++ ":" ++ c ++ ":" ++ w1 ++ s ++ ":" ++ w2
      ++ g ++ " [" ++ u ++ "]" ++ w3 ->
  p = path /\ n = ln /\ c = col /\ s = sev /\ g = msg /\ u = rule.
Proof.
  intros (Hpath & (Hln & _) & (Hcol & _) & Hsev & (_ & Hmsg1 & Hmsg2) & (Hrule & _))
         (Hn & Hn') (Hc & _) Hs (Hu & _) (Hw1 & Hw1') (Hw2 & Hw2') Hw3 E.
  unfold diagnostic_line in E.
  destruct msg as [|c0 msg0]; [discriminate Hmsg1 | ].
  cbn [starts_nonspace] in Hmsg1. apply negb_true_iff in Hmsg1.
  set (msg := String c0 msg0) in *.
  (* the header of the line has no white space *)
  assert (Hhead : no_space (path ++ ":" ++ ln ++ ":" ++ col ++ ":") = true).
  { pose proof (digits_no_space _ Hln) as S1.
    pose proof (digits_no_space _ Hcol) as S2.
    unfold no_space in *. rewrite !all_append, Hpath, S1, S2. reflexivity. }
  (* nothing after the header starts another one *)
  assert (Hrest : no_colon_digit (" " ++ sev ++ ": " ++ msg ++ " [" ++ rule ++ "]")
                  = true).
  { assert (M : no_colon_digit (msg ++ " [" ++ rule ++ "]") = true).
    { apply no_colon_digit_append; [exact Hmsg2 | | reflexivity].
      apply colon_free_no_colon_digit. rewrite !all_append.
      rewrite (all_impl _ _ _ rule_char_no_colon Hrule). reflexivity. }
    destruct Hsev as [-> | ->].
    - change (no_colon_digit (" error:" ++ String " " (msg ++ " [" ++ rule ++ "]"))
              = true).
      apply no_colon_digit_append; [reflexivity | | reflexivity].
      apply no_colon_digit_cons; [reflexivity | exact M].
    - change (no_colon_digit (" warning:" ++ String " " (msg ++ " [" ++ rule ++ "]"))
              = true).
      apply no_colon_digit_append; [reflexivity | | reflexivity].
      apply no_colon_digit_cons; [reflexivity | exact M]. }
  assert (E0 : (path ++ ":" ++ ln ++ ":" ++ col ++ ":")
                 ++ (" " ++ sev ++ ": " ++ msg ++ " [" ++ rule ++ "]")
               = p ++ (":" ++ n ++ ":" ++ c ++ ":" ++ w1 ++ s ++ ":" ++ w2
                           ++ g ++ " [" ++ u ++ "]" ++ w3))
    by (rewrite !append_assoc; exact E).
  destruct n as [|d n0]; [congruence | ].
  assert (Hd : isdigit d = true)
    by (cbn [all] in Hn; now apply andb_true_iff in Hn as [Hd _]).
  destruct w1 as [|x w1']; [congruence | ].
  cbn [all] in Hw1. apply andb_true_iff in Hw1 as [Hx Hw1].
  destruct (append_eq_cases _ _ _ _ E0) as [(z & Hz & Ez)|(z & Hz & Ez)].
  - (* the path read goes beyond the header: no header can follow *)
    exfalso. rewrite Ez in Hrest.
    exact (eq_true_false_abs _ Hrest
             (no_colon_digit_occurrence z
                (n0 ++ ":" ++ c ++ ":" ++ String x w1' ++ s ++ ":" ++ w2
                    ++ g ++ " [" ++ u ++ "]" ++ w3) d Hd)).
  - (* the path read stops within the header *)
    assert (Hzs : no_space z = true).
    { rewrite Hz in Hhead. unfold no_space in *. rewrite all_append in Hhead.
      now apply andb_true_iff in Hhead as [_ Hhead]. }
    assert (Ez' : (":" ++ String d n0 ++ ":" ++ c ++ ":")
                    ++ String x (w1' ++ s ++ ":" ++ w2 ++ g ++ " [" ++ u ++ "]" ++ w3)
                  = z ++ String " " (sev ++ ": " ++ msg ++ " [" ++ rule ++ "]"))
      by (rewrite !append_assoc; exact Ez).
    apply (span_unique (fun c => negb (isspace c))) in Ez' as [Hz' Et];
      [ | | exact Hzs | now rewrite Hx | reflexivity].
    2:{ pose proof (digits_no_space _ Hn) as S1.
        pose proof (digits_no_space _ Hc) as S2.
        unfold no_space in S1, S2. rewrite !all_append, S1, S2. reflexivity. }
    rewrite <- Hz' in Hz.
    apply header_unique in Hz as (-> & -> & ->); auto.
    injection Et as _ Et.
    (* the severity *)
    assert (Hw1e : w1' = EmptyString
                   /\ s ++ ":" ++ w2 ++ g ++ " [" ++ u ++ "]" ++ w3
                      = sev ++ ": " ++ msg ++ " [" ++ rule ++ "]").
    { destruct Hsev as [-> | ->].
      - apply (space_run_empty w1' _ _ "e") in Et as [-> Et]; auto.
      - apply (space_run_empty w1' _ _ "w") in Et as [-> Et]; auto. }
    destruct Hw1e as [-> Es].
    assert (Hss : s = sev
                  /\ w2 ++ g ++ " [" ++ u ++ "]" ++ w3
                     = " " ++ msg ++ " [" ++ rule ++ "]").
    { destruct Hs as [-> | ->]; destruct Hsev as [-> | ->];
        try discriminate Es; split; try reflexivity.
      - exact (append_inv_head "error:" _ _ Es).
      - exact (append_inv_head "warning:" _ _ Es). }
    destruct Hss as [-> Em].
    (* the white space before the message *)
    destruct w2 as [|y w2']; [congruence | ].
    cbn [all] in Hw2. apply andb_true_iff in Hw2 as [_ Hw2].
    injection Em as _ Em.
    apply (space_run_empty w2' _ _ c0) in Em as [-> Em]; auto.
    (* the message and the rule, from the end of the line *)
    assert (E1 : (g ++ " [" ++ u) ++ String "]" w3
                 = (msg ++ " [" ++ rule) ++ String "]" EmptyString)
      by (rewrite !append_assoc; exact Em).
    apply (last_sep_unique isspace) in E1 as [E1 _];
      [ | reflexivity | exact Hw3 | reflexivity].
    assert (E2 : (g ++ " ") ++ String "[" u = (msg ++ " ") ++ String "[" rule)
      by (rewrite !append_assoc; exact E1).
    apply (last_sep_unique (cset_mem rule_chars)) in E2 as [E2 ->];
      [ | reflexivity | exact Hu | exact Hrule].
    apply (last_sep_unique isdigit " " g msg EmptyString EmptyString)
      in E2 as [-> _]; try reflexivity.
    repeat split; reflexivity.
Qed.

(** The annotation of a diagnostic of six such texts. *)
Lemma annotation_of_diagnostic (prefix path ln col sev msg rule : string) :
  diagnostic_fields path ln col sev msg rule ->
  annotation prefix (diagnostic_line path ln col sev msg rule)
  = Some (annotation_text sev (PyStr.removeprefix prefix path) ln col rule msg).
Proof.
  intros F.
  pose proof F as (Hpath & (Hln & Hln') & (Hcol & Hcol') & Hsev
                   & (Hmsg & _ & _) & (Hrule & Hrule')).
  destruct (annotation_complete prefix path ln col sev msg rule " " " " EmptyString)
    as [out Hout]; auto using no_space_no_lf; try discriminate.
  assert (Hout' : annotation prefix (diagnostic_line path ln col sev msg rule)
                  = Some out) by exact Hout.
  clear Hout. unfold annotation in *.
  destruct (rmatch clang_tidy_pattern (diagnostic_line path ln col sev msg rule))
    as [m|] eqn:M; [ | discriminate].
  apply rmatch_In, clang_tidy_pattern_inv in M
    as (p & n & c & s & g & u & w1 & w2 & w3 & E & _ & Hs & Hn & Hc & Hu
        & Hw1 & Hw2 & Hw3 & G1 & G2 & G3 & G4 & G5 & G6).
  rewrite G1, G2, G3, G4, G5, G6.
  destruct (diagnostic_unique _ _ _ _ _ _ _ _ _ _ _ _ _ _ _ F Hn Hc Hs Hu Hw1 Hw2 Hw3 E)
    as (-> & -> & -> & -> & -> & ->).
  reflexivity.
Qed.

End DiagnosticFacts.

Section AnnotationFormat.

(** What a line that gets an annotation looks like, with the white space
    the pattern lets through, and the annotation. *)
Lemma annotation_inversion prefix line out :
  annotation prefix line = Some out ->
  exists path ln col sev msg rule ws1 ws2 ws3,
    line = path ++ ":" ++ ln ++ ":" ++ col ++ ":" ++ ws1 ++ sev ++ ":" ++ ws2
                ++ msg ++ " [" ++ rule ++ "]" ++ ws3
    /\ (no_lf path = true /\ no_lf msg = true)
    /\ (sev = "error" \/ sev = "warning")
    /\ (all isdigit ln = true /\ ln <> EmptyString)
    /\ (all isdigit col = true /\ col <> EmptyString)
    /\ (all (cset_mem rule_chars) rule = true /\ rule <> EmptyString)
    /\ (all isspace ws1 = true /\ ws1 <> EmptyString)
    /\ (all isspace ws2 = true /\ ws2 <> EmptyString)
    /\ all isspace ws3 = true
    /\ out = annotation_text sev (PyStr.removeprefix prefix path) ln col rule msg.
Proof.
  unfold annotation. destruct (rmatch clang_tidy_pattern line) as [m|] eqn:M;
    [ | discriminate].
  intros H. injection H as <-.
  apply rmatch_In, clang_tidy_pattern_inv in M
    as (p & n & c & s & g & u & w1 & w2 & w3 & E & Hpg & Hs & Hn & Hc & Hu
        & Hw1 & Hw2 & Hw3 & G1 & G2 & G3 & G4 & G5 & G6).
  rewrite G1, G2, G3, G4, G5, G6.
  exists p, n, c, s, g, u, w1, w2, w3. unfold annotation_text. auto 12.
Qed.

Lemma removeprefix_other (p s : string) :
  String.prefix p s = false -> PyStr.removeprefix p s = s.
Proof. unfold PyStr.removeprefix. now intros ->. Qed.

End AnnotationFormat.

(** C3: in the CI, what [tidy] prints after the line filter is, for each line
    of the tool's output that matches the diagnostic pattern and in the order
    of the lines, the annotation of that line, the prefix taken off being
    [/__w/velox/velox/].  The annotation of a diagnostic
    [path:line:col: severity: message [rule]] is
    [::severity file=path,line=line,col=col,title=rule::message] with the
    prefix taken off the path: the six texts of the annotation are the six of
    the line whenever the line can be read in one way only, a path that
    starts with the prefix loses it and any other path is kept whole.  A
    line that gets an annotation is a diagnostic, with the white space the
    pattern lets through, and its annotation is made of its six texts; every
    diagnostic gets one.  The line
    [/a/b.cpp:10:3: warning: unused variable [rule-x]] gives
    [::warning file=b.cpp,line=10,col=3,title=rule-x::unused variable] when
    the prefix is [/a/]; with the prefix of the script it is the line
    [/__w/velox/velox/b.cpp:10:3: warning: unused variable [rule-x]] that
    gives it, and the path [/a/b.cpp] is kept whole. *)
Theorem ci_annotation_format :
  forall (util_run : string -> option (list string) -> Z * string * string)
         (util_input_files : list string -> list string)
         (gha : string) (a : args) (out : outcome),
    tidy util_run util_input_files (Some gha) a = Ok out ->
    tl (printed out)
      = annotations workspace_prefix
          (PyStr.split_on LF (tool_stdout util_run util_input_files a out))
    /\ (forall o, In o (tl (printed out)) <->
          exists l,
            In l (PyStr.split_on LF (tool_stdout util_run util_input_files a out))
            /\ annotation workspace_prefix l = Some o)
    /\ (forall path ln col sev msg rule,
          diagnostic_fields path ln col sev msg rule ->
          In (diagnostic_line path ln col sev msg rule)
             (PyStr.split_on LF (tool_stdout util_run util_input_files a out)) ->
          In (annotation_text sev (PyStr.removeprefix workspace_prefix path)
                              ln col rule msg)
             (tl (printed out)))
    /\ (forall prefix path ln col sev msg rule,
          diagnostic_fields path ln col sev msg rule ->
          annotation prefix (diagnostic_line path ln col sev msg rule)
          = Some (annotation_text sev (PyStr.removeprefix prefix path)
                                  ln col rule msg))
    /\ (forall prefix rest ln col sev msg rule,
          diagnostic_fields (prefix ++ rest) ln col sev msg rule ->
          annotation prefix (diagnostic_line (prefix ++ rest) ln col sev msg rule)
          = Some (annotation_text sev rest ln col rule msg))
    /\ (forall prefix path ln col sev msg rule,
          diagnostic_fields path ln col sev msg rule ->
          String.prefix prefix path = false ->
          annotation prefix (diagnostic_line path ln col sev msg rule)
          = Some (annotation_text sev path ln col rule msg))
    /\ (forall prefix line o,
          annotation prefix line = Some o ->
          exists path ln col sev msg rule ws1 ws2 ws3,
            line = path ++ ":" ++ ln ++ ":" ++ col ++ ":" ++ ws1 ++ sev ++ ":" ++ ws2
                        ++ msg ++ " [" ++ rule ++ "]" ++ ws3
            /\ (no_lf path = true /\ no_lf msg = true)
            /\ (sev = "error" \/ sev = "warning")
            /\ (all isdigit ln = true /\ ln <> EmptyString)
            /\ (all isdigit col = true /\ col <> EmptyString)
            /\ (all (cset_mem rule_chars) rule = true /\ rule <> EmptyString)
            /\ (all isspace ws1 = true /\ ws1 <> EmptyString)
            /\ (all isspace ws2 = true /\ ws2 <> EmptyString)
            /\ all isspace ws3 = true
            /\ o = annotation_text sev (PyStr.removeprefix prefix path)
                                   ln col rule msg)
    /\ (forall prefix path ln col sev msg rule,
          no_lf path = true -> no_lf msg = true ->
          all isdigit ln = true -> ln <> EmptyString ->
          all isdigit col = true -> col <> EmptyString ->
          sev = "error" \/ sev = "warning" ->
          all (cset_mem rule_chars) rule = true -> rule <> EmptyString ->
          exists o,
            annotation prefix (diagnostic_line path ln col sev msg rule) = Some o)
    /\ annotation "/a/" "/a/b.cpp:10:3: warning: unused variable [rule-x]"
       = Some "::warning file=b.cpp,line=10,col=3,title=rule-x::unused variable"
    /\ annotation workspace_prefix
         "/__w/velox/velox/b.cpp:10:3: warning: unused variable [rule-x]"
       = Some "::warning file=b.cpp,line=10,col=3,title=rule-x::unused variable"
    /\ annotation workspace_prefix
         "/a/b.cpp:10:3: warning: unused variable [rule-x]"
       = Some "::warning file=/a/b.cpp,line=10,col=3,title=rule-x::unused variable".
Proof.
  intros util_run util_input_files gha a out H.
  unfold tidy in H. apply bind_Ok in H as (lines & _ & H). injection H as <-.
  unfold tool_stdout. cbn [printed command tl].
  split; [reflexivity | ]. split; [intros o; apply In_annotations | ].
  split.
  { intros path ln col sev msg rule F Hin. apply In_annotations.
    eexists. split; [exact Hin | ]. now apply annotation_of_diagnostic. }
  split; [intros; now apply annotation_of_diagnostic | ].
  split.
  { intros prefix rest ln col sev msg rule F.
    rewrite (annotation_of_diagnostic prefix _ _ _ _ _ _ F).
    now rewrite removeprefix_append. }
  split.
  { intros prefix path ln col sev msg rule F P.
    rewrite (annotation_of_diagnostic prefix _ _ _ _ _ _ F).
    now rewrite removeprefix_other. }
  split; [apply annotation_inversion | ].
  split; [ | repeat split; vm_compute; reflexivity].
  intros prefix path ln col sev msg rule Hp Hm Hl Hl' Hc Hc' Hs Hr Hr'.
  apply (annotation_complete prefix path ln col sev msg rule " " " " EmptyString);
    auto; discriminate.
Qed.

Lemma ci_annotation_format_witness :
  exists out,
    tidy ci_run given_files (Some "true") ci_args = Ok out
    /\ tl (printed out)
       = ["::warning file=velox/exec/Task.cpp,line=10,col=3,title=rule-x::unused variable";
          "::error file=velox/exec/Task.h,line=7,col=1,title=clang-diagnostic-error::unknown type name 'Foo'"].
Proof.
  destruct (tidy ci_run given_files (Some "true") ci_args) as [out|e] eqn:E;
    [ | vm_compute in E; discriminate E].
  exists out. split; [reflexivity | ].
  destruct (ci_annotation_format ci_run given_files "true" ci_args out E) as [H _].
  rewrite H. vm_compute. reflexivity.
Defined.
